(** * GinGo: the in-memory CRUD server of [part_000], embedded in Rocq

    The Go program keeps two package-level slices, [users] and [posts], and
    serves them through gin handlers.  The embedding keeps the shape of the
    source: one definition per Go function, under the Go name; package-level
    variables live in a [World] record, the per-request [*gin.Context] in a
    [Context] record, and every handler is a computation in a small monad
    [M] that threads both and can panic the way Go does on an index out of
    range.

    What belongs to gin or to the Go runtime rather than to this repository
    (the response writer, [c.Next]/[c.Abort], [fmt.Sprintf "%d"], the wall
    clock) is modelled from the library sources, as little as the handlers
    need. *)

From Stdlib Require Import ZArith Ascii String DecimalString DecimalZ Lia.
From Stdlib Require Import DecimalPos.
From stdpp Require Import base list strings.

Local Open Scope Z_scope.

(** ** Go runtime *)

Module Go.

(** [int], taken 64 bits wide as on amd64 and arm64; arithmetic wraps. *)
Definition int_wrap (z : Z) : Z := (z + 2 ^ 63) mod 2 ^ 64 - 2 ^ 63.
Definition int_add (a b : Z) : Z := int_wrap (a + b).

(** [int8], the type of [gin.Context.index]. *)
Definition int8_wrap (z : Z) : Z := (z + 2 ^ 7) mod 2 ^ 8 - 2 ^ 7.

(** [len(s)] as an [int]. *)
Definition len {A : Type} (s : list A) : Z := Z.of_nat (length s).

(** [fmt.Sprintf("%d", z)]: decimal digits, a leading minus sign for a
    negative number, ["0"] for zero. *)
Definition Sprintf_d (z : Z) : string :=
  NilZero.string_of_int (Z.to_int z).

(** [time.Time], kept abstract as an instant on an integer time line. *)
Definition Time : Type := Z.

End Go.

(** ** net/http status codes *)

Module http.
Definition StatusOK : Z := 200.
Definition StatusCreated : Z := 201.
Definition StatusBadRequest : Z := 400.
Definition StatusUnauthorized : Z := 401.
Definition StatusNotFound : Z := 404.
Definition StatusConflict : Z := 409.
Definition StatusInternalServerError : Z := 500.
End http.

(** ** The two models *)

Module User.
Record t : Type := mk {
  ID : Z;
  Username : string;
  Email : string;
  Password : string;
  Created : Go.Time
}.

Definition with_ID (v : Z) (u : t) : t :=
  mk v (Username u) (Email u) (Password u) (Created u).
Definition with_Username (v : string) (u : t) : t :=
  mk (ID u) v (Email u) (Password u) (Created u).
Definition with_Email (v : string) (u : t) : t :=
  mk (ID u) (Username u) v (Password u) (Created u).
Definition with_Password (v : string) (u : t) : t :=
  mk (ID u) (Username u) (Email u) v (Created u).
Definition with_Created (v : Go.Time) (u : t) : t :=
  mk (ID u) (Username u) (Email u) (Password u) v.
End User.

Module Post.
Record t : Type := mk {
  ID : Z;
  Title : string;
  Content : string;
  UserID : Z;
  Created : Go.Time
}.

Definition with_ID (v : Z) (p : t) : t :=
  mk v (Title p) (Content p) (UserID p) (Created p).
Definition with_Title (v : string) (p : t) : t :=
  mk (ID p) v (Content p) (UserID p) (Created p).
Definition with_Content (v : string) (p : t) : t :=
  mk (ID p) (Title p) v (UserID p) (Created p).
Definition with_Created (v : Go.Time) (p : t) : t :=
  mk (ID p) (Title p) (Content p) (UserID p) v.
End Post.

(** ** Process state

    [users] and [posts] are the package-level slices.  [ticks] counts the
    readings of the wall clock taken so far and [logs] collects what
    [log.Printf] has printed. *)

Record LogLine : Type := mkLogLine {
  log_method : string;
  log_path : string;
  log_client : string;
  log_latency : Z
}.

Record World : Type := mkWorld {
  users : list User.t;
  posts : list Post.t;
  ticks : nat;
  logs : list LogLine
}.

Definition set_users (v : list User.t) (w : World) : World :=
  mkWorld v (posts w) (ticks w) (logs w).
Definition set_posts (v : list Post.t) (w : World) : World :=
  mkWorld (users w) v (ticks w) (logs w).
Definition set_ticks (v : nat) (w : World) : World :=
  mkWorld (users w) (posts w) v (logs w).
Definition set_logs (v : list LogLine) (w : World) : World :=
  mkWorld (users w) (posts w) (ticks w) v.

(** ** gin: request, response writer, context *)

Module gin.

(** What a handler can ask of [c.Request].  [BasicAuth] is the result of
    [Request.BasicAuth()] ([None] when the header is absent or malformed).
    [jsonUser] and [jsonPost] are what decoding the body into a [User] or a
    [Post] yields: an error text, or the decoded record. *)
Record Request : Type := mkRequest {
  Method : string;
  Path : string;
  RemoteAddr : string;
  BasicAuth : option (string * string);
  jsonUser : string + User.t;
  jsonPost : string + Post.t
}.

(** The values the handlers serialise: [gin.H] with its single entry, a
    record, or a slice of records. *)
Inductive JSONValue : Type :=
| H (key value : string)
| OfUser (u : User.t)
| OfUsers (us : list User.t)
| OfPost (p : Post.t)
| OfPosts (ps : list Post.t).

(** gin's [responseWriter]: the status that will be (or was) sent, whether
    the header has gone out, and the bodies written so far. *)
Record ResponseWriter : Type := mkWriter {
  status : Z;
  written : bool;
  body : list JSONValue
}.

Definition defaultStatus : Z := 200.
Definition newWriter : ResponseWriter := mkWriter defaultStatus false [].

(** [responseWriter.WriteHeader]: a new code is recorded unless the header
    has already gone out. *)
Definition WriteHeader (code : Z) (rw : ResponseWriter) : ResponseWriter :=
  if (0 <? code) && negb (status rw =? code) then
    if written rw then rw else mkWriter code (written rw) (body rw)
  else rw.

Definition WriteHeaderNow (rw : ResponseWriter) : ResponseWriter :=
  mkWriter (status rw) true (body rw).

Definition Write (v : JSONValue) (rw : ResponseWriter) : ResponseWriter :=
  mkWriter (status rw) true (body rw ++ [v]).

Record Context : Type := mkContext {
  Req : Request;
  Params : list (string * string);
  index : Z;
  Writer : ResponseWriter
}.

Definition set_index (v : Z) (c : Context) : Context :=
  mkContext (Req c) (Params c) v (Writer c).
Definition set_Writer (v : ResponseWriter) (c : Context) : Context :=
  mkContext (Req c) (Params c) (index c) v.

Definition abortIndex : Z := 63.

(** The effect of [c.JSON(code, obj)] on the context: [c.Status(code)],
    then the header and the serialised body go out. *)
Definition render (code : Z) (obj : JSONValue) (c : Context) : Context :=
  set_Writer (Write obj (WriteHeader code (Writer c))) c.

(** The effect of [c.AbortWithStatus(code)]. *)
Definition abortWithStatus (code : Z) (c : Context) : Context :=
  set_index abortIndex
    (set_Writer (WriteHeaderNow (WriteHeader code (Writer c))) c).

(** [Params.ByName]: the first entry under that name, or the empty string. *)
Fixpoint ByName (ps : list (string * string)) (name : string) : string :=
  match ps with
  | [] => EmptyString
  | (k, v) :: rest => if String.eqb k name then v else ByName rest name
  end.

End gin.

(** ** The handler monad *)

Inductive Res (A : Type) : Type :=
| Ok (a : A) (c : gin.Context) (w : World)
| Panic (c : gin.Context) (w : World)
| OutOfFuel.
Arguments Ok {A} a c w.
Arguments Panic {A} c w.
Arguments OutOfFuel {A}.

Definition M (A : Type) : Type := gin.Context -> World -> Res A.

Definition ret {A : Type} (a : A) : M A := fun c w => Ok a c w.

Definition bind {A B : Type} (m : M A) (k : A -> M B) : M B :=
  fun c w =>
    match m c w with
    | Ok a c' w' => k a c' w'
    | Panic c' w' => Panic c' w'
    | OutOfFuel => OutOfFuel
    end.

Notation "'do' x <- m ; k" := (bind m (fun x => k))
  (at level 10, x name, m at level 100, k at level 200).
Notation "'exec' m ; k" := (bind m (fun _ => k))
  (at level 10, m at level 100, k at level 200).

Definition panic {A : Type} : M A := fun c w => Panic c w.

Definition getW {A : Type} (f : World -> A) : M A := fun c w => Ok (f w) c w.
Definition modW (f : World -> World) : M unit := fun c w => Ok tt c (f w).
Definition getC {A : Type} (f : gin.Context -> A) : M A :=
  fun c w => Ok (f c) c w.
Definition modC (f : gin.Context -> gin.Context) : M unit :=
  fun c w => Ok tt (f c) w.

(** [s[i]] panics when [i] is out of range. *)
Definition at_index {A : Type} (s : list A) (i : nat) : M A :=
  match s !! i with
  | Some a => ret a
  | None => panic
  end.

(** *** Methods of [*gin.Context] *)

Definition Param (name : string) : M string :=
  getC (fun c => gin.ByName (gin.Params c) name).

Definition Abort : M unit := modC (gin.set_index gin.abortIndex).

Definition JSON (code : Z) (obj : gin.JSONValue) : M unit :=
  modC (gin.render code obj).

Definition AbortWithStatus (code : Z) : M unit :=
  modC (gin.abortWithStatus code).

(** [c.BindJSON(&v)], [decoded] being what the body decodes to.  On a
    decoding error gin itself aborts the context with status 400 before
    the error comes back to the handler. *)
Definition BindJSON {A : Type} (decoded : gin.Request -> string + A)
  : M (string + A) :=
  do r <- getC (fun c => decoded (gin.Req c));
  match r with
  | inl err => exec AbortWithStatus http.StatusBadRequest; ret (inl err)
  | inr v => ret (inr v)
  end.

(** ** The program: [part_000] *)

Section Server.

(** The wall clock: [clock n] is what the [n]-th call of [time.Now()] in
    the life of the process returns. *)
Variable clock : nat -> Go.Time.

Definition time_Now : M Go.Time :=
  do n <- getW ticks;
  exec modW (set_ticks (S n));
  ret (clock n).

(** [var dummyUser = User{...}]; its [Created] is the first clock reading,
    taken when the package is initialised. *)
Definition dummyUser : User.t :=
  User.mk 1 "admin" "admin@example.com" "password123" (clock 0).

(** A [gin.HandlerFunc], given what [c.Next()] does when it is called from
    inside it. *)
Definition HandlerFunc : Type := M unit -> M unit.

(** A handler that never calls [c.Next()]. *)
Definition handler (h : M unit) : HandlerFunc := fun _ => h.

(** *** Middleware *)

Definition AuthMiddleware : HandlerFunc := fun Next =>
  do auth <- getC (fun c => gin.BasicAuth (gin.Req c));
  let '(username, password, ok) :=
    match auth with
    | Some (u, p) => (u, p, true)
    | None => (EmptyString, EmptyString, false)
    end in
  if negb ok
     || negb (String.eqb username (User.Username dummyUser))
     || negb (String.eqb password (User.Password dummyUser))
  then
    exec JSON http.StatusUnauthorized (gin.H "status" "unauthorized");
    Abort
  else Next.

Definition LoggerMiddleware : HandlerFunc := fun Next =>
  do t <- time_Now;
  exec Next;
  do t' <- time_Now;
  do rq <- getC gin.Req;
  modW (fun w =>
    set_logs (logs w ++ [mkLogLine (gin.Method rq) (gin.Path rq)
                                   (gin.RemoteAddr rq) (t' - t)]) w).

(** *** Helpers *)

Fixpoint userExists_range (rest : list User.t) (username : string) : bool :=
  match rest with
  | [] => false
  | user :: rest' =>
    if String.eqb (User.Username user) username then true
    else userExists_range rest' username
  end.

Definition userExists (username : string) : M bool :=
  do us <- getW users;
  ret (userExists_range us username).

Definition validateUserInput (user : User.t) : bool :=
  negb (String.eqb (User.Username user) EmptyString)
  && negb (String.eqb (User.Email user) EmptyString)
  && negb (String.eqb (User.Password user) EmptyString).

Definition validatePostInput (post : Post.t) : bool :=
  negb (String.eqb (Post.Title post) EmptyString)
  && negb (String.eqb (Post.Content post) EmptyString).

(** [users[i].f = v]: an assignment through the index, which panics out of
    range. *)
Definition assign_users (i : nat) (f : User.t -> User.t) : M unit :=
  do us <- getW users;
  do u <- at_index us i;
  modW (set_users (<[i := f u]> us)).

Definition assign_posts (i : nat) (f : Post.t -> Post.t) : M unit :=
  do ps <- getW posts;
  do p <- at_index ps i;
  modW (set_posts (<[i := f p]> ps)).

(** [append(s[:i], s[i+1:]...)]; both slice expressions panic unless
    [i < len(s)]. *)
Definition splice {A : Type} (s : list A) (i : nat) : M (list A) :=
  if decide (i < length s)%nat then ret (take i s ++ drop (S i) s)
  else panic.

(** *** User handlers *)

Definition getUsers : M unit :=
  do us <- getW users;
  if Go.len us =? 0 then
    JSON http.StatusNotFound (gin.H "message" "No users found")
  else
    do us <- getW users;
    JSON http.StatusOK (gin.OfUsers us).

Definition createUser : M unit :=
  do r <- BindJSON gin.jsonUser;
  match r with
  | inl err => JSON http.StatusBadRequest (gin.H "error" err)
  | inr newUser =>
    if negb (validateUserInput newUser) then
      JSON http.StatusBadRequest (gin.H "error" "Invalid user input")
    else
      do found <- userExists (User.Username newUser);
      if found then
        JSON http.StatusConflict (gin.H "error" "User already exists")
      else
        do us <- getW users;
        let newUser := User.with_ID (Go.int_add (Go.len us) 1) newUser in
        do now <- time_Now;
        let newUser := User.with_Created now newUser in
        exec modW (fun w => set_users (users w ++ [newUser]) w);
        JSON http.StatusCreated (gin.OfUser newUser)
  end.

(** The body of [for i, user := range users] from position [i] on, [rest]
    being what is left of the slice the loop ranges over. *)
Fixpoint updateUser_range (id : string) (i : nat) (rest : list User.t)
  : M unit :=
  match rest with
  | [] => JSON http.StatusNotFound (gin.H "message" "User not found")
  | user :: rest' =>
    if String.eqb (Go.Sprintf_d (User.ID user)) id then
      do r <- BindJSON gin.jsonUser;
      match r with
      | inl err => JSON http.StatusBadRequest (gin.H "error" err)
      | inr updatedUser =>
        exec assign_users i (User.with_Username (User.Username updatedUser));
        exec assign_users i (User.with_Email (User.Email updatedUser));
        exec assign_users i (User.with_Password (User.Password updatedUser));
        do us <- getW users;
        do u <- at_index us i;
        JSON http.StatusOK (gin.OfUser u)
      end
    else updateUser_range id (S i) rest'
  end.

Definition updateUser : M unit :=
  do id <- Param "id";
  do us <- getW users;
  updateUser_range id 0 us.

Fixpoint deleteUser_range (id : string) (i : nat) (rest : list User.t)
  : M unit :=
  match rest with
  | [] => JSON http.StatusNotFound (gin.H "message" "User not found")
  | user :: rest' =>
    if String.eqb (Go.Sprintf_d (User.ID user)) id then
      do us <- getW users;
      do us' <- splice us i;
      exec modW (set_users us');
      JSON http.StatusOK (gin.H "message" "User deleted")
    else deleteUser_range id (S i) rest'
  end.

Definition deleteUser : M unit :=
  do id <- Param "id";
  do us <- getW users;
  deleteUser_range id 0 us.

(** *** Post handlers *)

Definition getPosts : M unit :=
  do ps <- getW posts;
  if Go.len ps =? 0 then
    JSON http.StatusNotFound (gin.H "message" "No posts found")
  else
    do ps <- getW posts;
    JSON http.StatusOK (gin.OfPosts ps).

Definition createPost : M unit :=
  do r <- BindJSON gin.jsonPost;
  match r with
  | inl err => JSON http.StatusBadRequest (gin.H "error" err)
  | inr newPost =>
    do ps <- getW posts;
    let newPost := Post.with_ID (Go.int_add (Go.len ps) 1) newPost in
    do now <- time_Now;
    let newPost := Post.with_Created now newPost in
    exec modW (fun w => set_posts (posts w ++ [newPost]) w);
    JSON http.StatusCreated (gin.OfPost newPost)
  end.

Fixpoint updatePost_range (id : string) (i : nat) (rest : list Post.t)
  : M unit :=
  match rest with
  | [] => JSON http.StatusNotFound (gin.H "message" "Post not found")
  | post :: rest' =>
    if String.eqb (Go.Sprintf_d (Post.ID post)) id then
      do r <- BindJSON gin.jsonPost;
      match r with
      | inl err => JSON http.StatusBadRequest (gin.H "error" err)
      | inr updatedPost =>
        exec assign_posts i (Post.with_Title (Post.Title updatedPost));
        exec assign_posts i (Post.with_Content (Post.Content updatedPost));
        do ps <- getW posts;
        do p <- at_index ps i;
        JSON http.StatusOK (gin.OfPost p)
      end
    else updatePost_range id (S i) rest'
  end.

Definition updatePost : M unit :=
  do id <- Param "id";
  do ps <- getW posts;
  updatePost_range id 0 ps.

Fixpoint deletePost_range (id : string) (i : nat) (rest : list Post.t)
  : M unit :=
  match rest with
  | [] => JSON http.StatusNotFound (gin.H "message" "Post not found")
  | post :: rest' =>
    if String.eqb (Go.Sprintf_d (Post.ID post)) id then
      do ps <- getW posts;
      do ps' <- splice ps i;
      exec modW (set_posts ps');
      JSON http.StatusOK (gin.H "message" "Post deleted")
    else deletePost_range id (S i) rest'
  end.

Definition deletePost : M unit :=
  do id <- Param "id";
  do ps <- getW posts;
  deletePost_range id 0 ps.

(** *** gin's engine, as far as [hew] uses it *)

(** [gin.Logger()] reads the clock before and after the rest of the chain;
    what it prints goes to gin's own writer, which is not part of the
    state here. *)
Definition ginLogger : HandlerFunc := fun Next =>
  do start <- time_Now;
  exec Next;
  do stamp <- time_Now;
  ret tt.

(** [gin.Recovery()] turns a panic further down the chain into a 500. *)
Definition ginRecovery : HandlerFunc := fun Next c w =>
  match Next c w with
  | Panic c' w' => AbortWithStatus http.StatusInternalServerError c' w'
  | r => r
  end.

(** [c.handlers[c.index]], a panic when the index is out of range. *)
Definition handler_at (handlers : list HandlerFunc) (i : Z) : M HandlerFunc :=
  if i <? 0 then panic else at_index handlers (Z.to_nat i).

(** [Context.Next]:
<<
    c.index++
    for c.index < int8(len(c.handlers)) {
        c.handlers[c.index](c)
        c.index++
    }
>>
    One turn of the loop followed by the rest of the loop is the handler
    followed by [Next] itself, which is how the recursion is written.
    [fuel] bounds the depth of the calls. *)
Fixpoint Next (fuel : nat) (handlers : list HandlerFunc) : M unit :=
  match fuel with
  | O => fun _ _ => OutOfFuel
  | S fuel' =>
    exec modC (fun c => gin.set_index (Go.int8_wrap (gin.index c + 1)) c);
    do i <- getC gin.index;
    if i <? Go.int8_wrap (Go.len handlers) then
      do h <- handler_at handlers i;
      exec h (Next fuel' handlers);
      Next fuel' handlers
    else ret tt
  end.

Record Route : Type := mkRoute {
  route_method : string;
  route_path : string;
  route_handlers : list HandlerFunc
}.

Record Engine : Type := mkEngine {
  Handlers : list HandlerFunc;
  trees : list Route
}.

Definition Default : Engine := mkEngine [ginLogger; ginRecovery] [].

Definition Use (middleware : HandlerFunc) (e : Engine) : Engine :=
  mkEngine (Handlers e ++ [middleware]) (trees e).

(** [router.Group("/", m...)]: the group's chain is the engine's chain at
    that moment followed by the group's own middleware. *)
Definition Group (e : Engine) (middleware : list HandlerFunc)
  : list HandlerFunc :=
  Handlers e ++ middleware.

(** [group.Handle(method, path, h)]. *)
Definition Handle (group : list HandlerFunc) (method path : string)
  (h : M unit) (e : Engine) : Engine :=
  mkEngine (Handlers e)
           (trees e ++ [mkRoute method path (group ++ [handler h])]).

(** The segments of a path between its slashes. *)
Fixpoint segments (s : string) : list string :=
  match s with
  | EmptyString => [EmptyString]
  | String a rest =>
    if Ascii.eqb a "/"%char then EmptyString :: segments rest
    else match segments rest with
         | seg :: more => String a seg :: more
         | [] => [String a EmptyString]
         end
  end.

(** A route pattern against a request path, segment by segment: [:name]
    takes any non-empty segment and binds it. *)
Fixpoint match_segments (pattern path : list string)
  : option (list (string * string)) :=
  match pattern, path with
  | [], [] => Some []
  | String ":"%char name :: pattern', seg :: path' =>
    if String.eqb seg EmptyString then None
    else match match_segments pattern' path' with
         | Some ps => Some ((name, seg) :: ps)
         | None => None
         end
  | lit :: pattern', seg :: path' =>
    if String.eqb lit seg then match_segments pattern' path' else None
  | _, _ => None
  end.

(** The registered route a request falls on, with the parameters its
    path binds. *)
Fixpoint getValue (routes : list Route) (method path : string)
  : option (Route * list (string * string)) :=
  match routes with
  | [] => None
  | r :: routes' =>
    if String.eqb (route_method r) method then
      match match_segments (segments (route_path r)) (segments path) with
      | Some ps => Some (r, ps)
      | None => getValue routes' method path
      end
    else getValue routes' method path
  end.

(** [Engine.ServeHTTP] for a request that matches a registered route: a
    fresh context, then the route's chain.  [None] stands for gin's
    fallback (redirect or 404 page) when no route matches. *)
Definition ServeHTTP (fuel : nat) (e : Engine) (rq : gin.Request)
  (w : World) : option (Res unit) :=
  match getValue (trees e) (gin.Method rq) (gin.Path rq) with
  | Some (r, params) =>
    Some (Next fuel (route_handlers r)
               (gin.mkContext rq params (-1) gin.newWriter) w)
  | None => None
  end.

(** [func hew()], up to [router.Run]. *)
Definition hew : Engine :=
  let router := Default in
  let router := Use LoggerMiddleware router in
  let auth := Group router [AuthMiddleware] in
  let router := Handle (Handlers router) "GET" "/users" getUsers router in
  let router := Handle (Handlers router) "POST" "/users" createUser router in
  let router :=
    Handle (Handlers router) "PUT" "/users/:id" updateUser router in
  let router :=
    Handle (Handlers router) "DELETE" "/users/:id" deleteUser router in
  let router := Handle auth "GET" "/posts" getPosts router in
  let router := Handle auth "POST" "/posts" createPost router in
  let router := Handle auth "PUT" "/posts/:id" updatePost router in
  let router := Handle auth "DELETE" "/posts/:id" deletePost router in
  router.

End Server.

(** The world when [hew] starts serving: both slices empty, one clock
    reading taken (for [dummyUser.Created]). *)
Definition initial : World := mkWorld [] [] 1 [].

(** The chain of the protected group in [hew], ending in any handler [h]. *)
Definition protected_chain (clock : nat -> Go.Time) (h : M unit)
  : list HandlerFunc :=
  [ginLogger clock; ginRecovery; LoggerMiddleware clock; AuthMiddleware clock;
   handler h].

(** The world after the server has answered [rq], when the chain returned. *)
Definition served (clock : nat -> Go.Time) (fuel : nat) (rq : gin.Request)
  (w : World) : option World :=
  match ServeHTTP fuel (hew clock) rq w with
  | Some (Ok _ _ w') => Some w'
  | _ => None
  end.

(** The context of a request once exactly one response, [obj] under status
    [code], has gone out on it. *)
Definition answered (code : Z) (obj : gin.JSONValue) (c : gin.Context)
  : gin.Context :=
  gin.set_Writer (gin.mkWriter code true [obj]) c.

(** [x] is the first element of [l] that satisfies [p], with [l1] before it
    and [l2] after it: where a [for ... range] loop that returns on its first
    hit stops. *)
Definition first_hit {A : Type} (p : A -> bool) (l l1 : list A) (x : A)
  (l2 : list A) : Prop :=
  l = l1 ++ x :: l2 /\ p x = true /\ Forall (fun y => p y = false) l1.

(** No element of [l] other than [x] satisfies [p]. *)
Definition sole_hit {A : Type} (p : A -> bool) (l : list A) (x : A) : Prop :=
  forall y, In y l -> p y = true -> y = x.

(** The test of the user loops, and of the post loops. *)
Definition user_has_id (id : string) (u : User.t) : bool :=
  String.eqb (Go.Sprintf_d (User.ID u)) id.
Definition post_has_id (id : string) (p : Post.t) : bool :=
  String.eqb (Go.Sprintf_d (Post.ID p)) id.

(** What an update can never touch in a post. *)
Definition post_frame (p : Post.t) : Z * Z * Go.Time :=
  (Post.ID p, Post.UserID p, Post.Created p).

(** ** The lookup helper of [part_000]

    [findPostByID] ranges over [posts] and returns the address of the loop
    variable, a copy of the post it stopped at, or [nil]: a value here, or
    [None]. *)

Fixpoint findPostByID_range (rest : list Post.t) (id : Z) : option Post.t :=
  match rest with
  | [] => None
  | post :: rest' =>
    if Post.ID post =? id then Some post else findPostByID_range rest' id
  end.

Definition findPostByID (id : Z) : M (option Post.t) :=
  do ps <- getW posts;
  ret (findPostByID_range ps id).

(** The test of [findPostByID]. *)
Definition post_has_ID (id : Z) (p : Post.t) : bool := Post.ID p =? id.

(** The chain of an unprotected route of [hew], ending in handler [h]. *)
Definition public_chain (clock : nat -> Go.Time) (h : M unit)
  : list HandlerFunc :=
  [ginLogger clock; ginRecovery; LoggerMiddleware clock; handler h].

(** The context of a request whose body did not decode, once the handler has
    returned: [BindJSON] has aborted it under status 400 and the handler has
    written the error text. *)
Definition rejected (err : string) (c : gin.Context) : gin.Context :=
  gin.mkContext (gin.Req c) (gin.Params c) gin.abortIndex
    (gin.mkWriter http.StatusBadRequest true [gin.H "error" err]).

(** [c'] is [c] after a handler has answered on it: one response written,
    or the 400 of a body that did not decode. *)
Definition replied (c c' : gin.Context) : Prop :=
  (exists code obj, c' = answered code obj c)
  \/ (exists err, c' = rejected err c).

(** Identifiers 1, 2, ..., n in store order: what creations alone produce. *)
Definition in_sequence (ids : list Z) : Prop :=
  ids = map Z.of_nat (seq 1 (length ids)).

(** ** Sample data, for running the handlers on concrete input *)

Module Sample.

Definition clock (n : nat) : Go.Time := 1000 + Z.of_nat n.

Definition user (id : Z) (name email password : string) : User.t :=
  User.mk id name email password 0.

Definition post (id : Z) (title content : string) (owner : Z) : Post.t :=
  Post.mk id title content owner 0.

(** A request with a body that decodes as a user. *)
Definition user_request (method path : string) (u : User.t) : gin.Request :=
  gin.mkRequest method path "10.0.0.7" None (inr u)
                (inl "json: cannot unmarshal").

(** A request with a body that decodes as a post, under the given
    credentials. *)
Definition post_request (method path : string)
  (auth : option (string * string)) (p : Post.t) : gin.Request :=
  gin.mkRequest method path "10.0.0.7" auth
                (inl "json: cannot unmarshal") (inr p).

Definition bare_request (method path : string) : gin.Request :=
  gin.mkRequest method path "10.0.0.7" None (inl "EOF") (inl "EOF").

(** The context a user handler sees: three middlewares have run, nothing
    is written. *)
Definition context (rq : gin.Request) (params : list (string * string))
  : gin.Context :=
  gin.mkContext rq params 3 gin.newWriter.

Definition alice : User.t := User.mk 1 "alice" "a@x.com" "secret" 1003.
Definition bob : User.t := User.mk 2 "bob" "b@x.com" "pw" 1009.
Definition carol : User.t := User.mk 2 "carol" "c@x.com" "hunter2" 1021.

Definition two_users : World := mkWorld [alice; bob] [] 13 [].

(** The store after alice was deleted and carol created: bob's identifier
    twice. *)
Definition reused : World := mkWorld [bob; carol] [] 22 [].

Definition hello : Post.t := Post.mk 1 "hello" "first post" 1 1030.
Definition again : Post.t := Post.mk 2 "again" "second post" 2 1036.

Definition two_posts : World := mkWorld [alice; bob] [hello; again] 25 [].

End Sample.

(** ** More sample requests *)

Module Cases.

Definition admin : option (string * string) :=
  Some ("admin", "password123").

(** Contexts as the user handlers see them. *)
Definition put_user_9 : gin.Context :=
  Sample.context (Sample.bare_request "PUT" "/users/9") [("id", "9")].
Definition put_user_2_unreadable : gin.Context :=
  Sample.context (Sample.bare_request "PUT" "/users/2") [("id", "2")].
Definition put_user_2_as_alice : gin.Context :=
  Sample.context
    (Sample.user_request "PUT" "/users/2"
       (Sample.user 0 "alice" "a2@x.com" "pw"))
    [("id", "2")].
Definition delete_user_1 : gin.Context :=
  Sample.context (Sample.bare_request "DELETE" "/users/1") [("id", "1")].
Definition post_user_unreadable : gin.Context :=
  Sample.context (Sample.bare_request "POST" "/users") [].
Definition post_user_carol : gin.Context :=
  Sample.context
    (Sample.user_request "POST" "/users"
       (Sample.user 0 "carol" "c@x.com" "hunter2")) [].
Definition get_users : gin.Context :=
  Sample.context (Sample.bare_request "GET" "/users") [].

(** Contexts as the post handlers see them, one place further down. *)
Definition post_context (rq : gin.Request) (params : list (string * string))
  : gin.Context :=
  gin.mkContext rq params 4 gin.newWriter.
Definition put_post_9 : gin.Context :=
  post_context (Sample.post_request "PUT" "/posts/9" admin Sample.hello)
               [("id", "9")].
Definition delete_post_1 : gin.Context :=
  post_context (Sample.post_request "DELETE" "/posts/1" admin Sample.hello)
               [("id", "1")].
Definition get_posts : gin.Context :=
  post_context (Sample.post_request "GET" "/posts" admin Sample.hello) [].
Definition post_post_note : gin.Context :=
  post_context
    (Sample.post_request "POST" "/posts" admin
       (Sample.post 0 "note" "third post" 2)) [].

(** The store in which an identifier is held twice, as the router leaves it
    under [Sample.clock] after: create alice, create bob, delete user 1,
    create carol. *)
Definition by_router : option World :=
  match served Sample.clock 5
          (Sample.user_request "POST" "/users"
             (Sample.user 0 "alice" "a@x.com" "secret")) initial with
  | Some w1 =>
    match served Sample.clock 5
            (Sample.user_request "POST" "/users"
               (Sample.user 0 "bob" "b@x.com" "pw")) w1 with
    | Some w2 =>
      match served Sample.clock 5
              (Sample.bare_request "DELETE" "/users/1") w2 with
      | Some w3 =>
        served Sample.clock 5
          (Sample.user_request "POST" "/users"
             (Sample.user 0 "carol" "c@x.com" "hunter2")) w3
      | None => None
      end
    | None => None
    end
  | None => None
  end.

Definition bob2 : User.t := User.mk 2 "bob" "b@x.com" "pw" 1008.
Definition carol2 : User.t := User.mk 2 "carol" "c@x.com" "hunter2" 1017.

Definition four_lines : list LogLine :=
  [mkLogLine "POST" "/users" "10.0.0.7" 2;
   mkLogLine "POST" "/users" "10.0.0.7" 2;
   mkLogLine "DELETE" "/users/1" "10.0.0.7" 1;
   mkLogLine "POST" "/users" "10.0.0.7" 2].

Definition after_reuse : World := mkWorld [bob2; carol2] [] 20 four_lines.

Definition put_user_2_robert : gin.Context :=
  Sample.context
    (Sample.user_request "PUT" "/users/2"
       (Sample.user 0 "robert" "r@x.com" "pw9"))
    [("id", "2")].
Definition delete_user_2 : gin.Context :=
  Sample.context (Sample.bare_request "DELETE" "/users/2") [("id", "2")].

End Cases.

(** * Properties *)

(** ** The response writer *)

Lemma render_fresh (code : Z) (obj : gin.JSONValue) (c : gin.Context) :
  0 < code ->
  gin.Writer c = gin.newWriter ->
  gin.render code obj c = answered code obj c.
Proof.
  intros Hpos Hw. unfold gin.render, answered, gin.WriteHeader. rewrite Hw.
  cbn [gin.status gin.written gin.body gin.newWriter].
  replace (0 <? code) with true by (symmetry; apply Z.ltb_lt; exact Hpos).
  unfold gin.defaultStatus.
  destruct (200 =? code) eqn:E; cbn.
  - apply Z.eqb_eq in E. subst code. reflexivity.
  - reflexivity.
Qed.

Lemma JSON_fresh (code : Z) (obj : gin.JSONValue) (c : gin.Context)
  (w : World) :
  0 < code ->
  gin.Writer c = gin.newWriter ->
  JSON code obj c w = Ok tt (answered code obj c) w.
Proof.
  intros Hpos Hw. unfold JSON, modC. rewrite render_fresh by assumption.
  reflexivity.
Qed.

Lemma BindJSON_ok {A : Type} (decoded : gin.Request -> string + A)
  (c : gin.Context) (w : World) (v : A) :
  decoded (gin.Req c) = inr v ->
  BindJSON decoded c w = Ok (inr v) c w.
Proof.
  intros H. unfold BindJSON, bind, getC. rewrite H. reflexivity.
Qed.

(** ** Listing *)

(** C8: on an empty users store [getUsers] answers 404 with a message, not
    200 with an empty array; [getPosts] does the same on an empty posts
    store. *)
Theorem C8_list_empty_is_404 (c : gin.Context) (w : World) :
  gin.Writer c = gin.newWriter ->
  (users w = [] ->
   getUsers c w
   = Ok tt (answered http.StatusNotFound
                     (gin.H "message" "No users found") c) w)
  /\ (posts w = [] ->
      getPosts c w
      = Ok tt (answered http.StatusNotFound
                        (gin.H "message" "No posts found") c) w)
  /\ answered http.StatusNotFound (gin.H "message" "No users found") c
     <> answered http.StatusOK (gin.OfUsers []) c
  /\ answered http.StatusNotFound (gin.H "message" "No posts found") c
     <> answered http.StatusOK (gin.OfPosts []) c.
Proof.
  intros Hw. repeat split.
  - intros He. unfold getUsers, bind, getW. rewrite He. cbn.
    apply JSON_fresh; [reflexivity | exact Hw].
  - intros He. unfold getPosts, bind, getW. rewrite He. cbn.
    apply JSON_fresh; [reflexivity | exact Hw].
  - unfold answered, gin.set_Writer. discriminate.
  - unfold answered, gin.set_Writer. discriminate.
Qed.

(** ** Creating a user *)

Lemma userExists_range_true (us : list User.t) (username : string) :
  userExists_range us username = true
  <-> exists v, In v us /\ User.Username v = username.
Proof.
  induction us as [|a us IH]; cbn.
  - split; [discriminate | intros (v & [] & _)].
  - destruct (String.eqb (User.Username a) username) eqn:E.
    + apply String.eqb_eq in E. split; [|reflexivity].
      intros _. exists a. split; [left; reflexivity | exact E].
    + apply String.eqb_neq in E. rewrite IH. split.
      * intros (v & Hin & Hv). exists v. split; [right; exact Hin | exact Hv].
      * intros (v & [Hin | Hin] & Hv); [subst; contradiction|].
        exists v. split; assumption.
Qed.

Lemma validateUserInput_false (u : User.t) :
  validateUserInput u = false
  <-> User.Username u = EmptyString \/ User.Email u = EmptyString
      \/ User.Password u = EmptyString.
Proof.
  unfold validateUserInput.
  destruct (String.eqb_spec (User.Username u) EmptyString) as [E1|E1];
    destruct (String.eqb_spec (User.Email u) EmptyString) as [E2|E2];
    destruct (String.eqb_spec (User.Password u) EmptyString) as [E3|E3];
    cbn; split; auto; try discriminate; intros [?|[?|?]]; contradiction.
Qed.

(** C3: a decodable create-user request with an empty username, email or
    password is answered 400, and the world (the users store with it) is
    returned as it was. *)
Theorem C3_createUser_empty_field (clock : nat -> Go.Time) (c : gin.Context)
  (w : World) (u : User.t) :
  gin.Writer c = gin.newWriter ->
  gin.jsonUser (gin.Req c) = inr u ->
  User.Username u = EmptyString \/ User.Email u = EmptyString
    \/ User.Password u = EmptyString ->
  createUser clock c w
  = Ok tt (answered http.StatusBadRequest
                    (gin.H "error" "Invalid user input") c) w.
Proof.
  intros Hw Hj He. apply validateUserInput_false in He.
  unfold createUser, bind. rewrite (BindJSON_ok _ _ _ _ Hj). rewrite He. cbn.
  apply JSON_fresh; [reflexivity | exact Hw].
Qed.

(** C2, as amended: a decodable create-user request whose three fields are
    all non-empty and whose username is that of a user already in the store
    is answered 409, and the world is returned as it was. *)
Theorem C2_createUser_duplicate (clock : nat -> Go.Time) (c : gin.Context)
  (w : World) (u : User.t) :
  gin.Writer c = gin.newWriter ->
  gin.jsonUser (gin.Req c) = inr u ->
  User.Username u <> EmptyString /\ User.Email u <> EmptyString
    /\ User.Password u <> EmptyString ->
  (exists v, In v (users w) /\ User.Username v = User.Username u) ->
  createUser clock c w
  = Ok tt (answered http.StatusConflict
                    (gin.H "error" "User already exists") c) w.
Proof.
  intros Hw Hj Hne Hex.
  assert (Hv : validateUserInput u = true).
  { destruct (validateUserInput u) eqn:E; [reflexivity|].
    apply validateUserInput_false in E. tauto. }
  apply userExists_range_true in Hex.
  unfold createUser, bind. rewrite (BindJSON_ok _ _ _ _ Hj). rewrite Hv. cbn.
  unfold userExists, bind, getW, ret. rewrite Hex.
  apply JSON_fresh; [reflexivity | exact Hw].
Qed.

(** What a successful [createUser] does, for any store. *)
Lemma createUser_created (clock : nat -> Go.Time) (c : gin.Context)
  (w : World) (u : User.t) :
  gin.Writer c = gin.newWriter ->
  gin.jsonUser (gin.Req c) = inr u ->
  validateUserInput u = true ->
  userExists_range (users w) (User.Username u) = false ->
  let created :=
    User.mk (Go.int_add (Go.len (users w)) 1) (User.Username u)
            (User.Email u) (User.Password u) (clock (ticks w)) in
  createUser clock c w
  = Ok tt (answered http.StatusCreated (gin.OfUser created) c)
          (mkWorld (users w ++ [created]) (posts w) (S (ticks w)) (logs w)).
Proof.
  intros Hw Hj Hv Hex created.
  unfold createUser, bind. rewrite (BindJSON_ok _ _ _ _ Hj). rewrite Hv. cbn.
  unfold userExists, bind, getW, ret. rewrite Hex. cbn.
  rewrite JSON_fresh; [reflexivity | reflexivity | exact Hw].
Qed.

(** C7: on an empty users store, creating bob (b@x.com, pw) is answered 201
    with the created record, which carries identifier 1 and the clock
    reading taken by the handler; that record is the store afterwards. *)
Theorem C7_createUser_bob (clock : nat -> Go.Time) (c : gin.Context)
  (w : World) (u : User.t) :
  gin.Writer c = gin.newWriter ->
  gin.jsonUser (gin.Req c) = inr u ->
  User.Username u = "bob" /\ User.Email u = "b@x.com"
    /\ User.Password u = "pw" ->
  users w = [] ->
  let bob := User.mk 1 "bob" "b@x.com" "pw" (clock (ticks w)) in
  createUser clock c w
  = Ok tt (answered http.StatusCreated (gin.OfUser bob) c)
          (mkWorld [bob] (posts w) (S (ticks w)) (logs w)).
Proof.
  intros Hw Hj (Hn & He & Hp) Hu bob.
  rewrite (createUser_created clock c w u Hw Hj).
  - rewrite Hu, Hn, He, Hp. reflexivity.
  - unfold validateUserInput. rewrite Hn, He, Hp. reflexivity.
  - rewrite Hu. reflexivity.
Qed.

(** ** Creating a post *)

(** C4: every decodable create-post request is answered 201 and its post is
    appended, under identifier [len(posts)+1] and the handler's clock
    reading, whatever the store already holds; that goes for a post with an
    empty title and an empty content too, which [validatePostInput] rejects:
    the helper has no say in [createPost]. *)
Theorem C4_createPost_unvalidated (clock : nat -> Go.Time) (c : gin.Context)
  (w : World) (p : Post.t) :
  gin.Writer c = gin.newWriter ->
  gin.jsonPost (gin.Req c) = inr p ->
  let created :=
    Post.mk (Go.int_add (Go.len (posts w)) 1) (Post.Title p)
            (Post.Content p) (Post.UserID p) (clock (ticks w)) in
  createPost clock c w
  = Ok tt (answered http.StatusCreated (gin.OfPost created) c)
          (mkWorld (users w) (posts w ++ [created]) (S (ticks w)) (logs w))
  /\ (Post.Title p = EmptyString /\ Post.Content p = EmptyString ->
      validatePostInput p = false).
Proof.
  intros Hw Hj created. split.
  - unfold createPost, bind. rewrite (BindJSON_ok _ _ _ _ Hj). cbn.
    rewrite JSON_fresh; [reflexivity | reflexivity | exact Hw].
  - intros (Ht & Hc). unfold validatePostInput. rewrite Ht. reflexivity.
Qed.

(** ** The range loops *)

Lemma first_hit_exists {A : Type} (p : A -> bool) (l : list A) :
  (exists x, In x l /\ p x = true) ->
  exists l1 x l2, first_hit p l l1 x l2.
Proof.
  induction l as [|a l IH]; intros (x & Hin & Hp).
  - destruct Hin.
  - destruct (p a) eqn:Ea.
    + exists [], a, l. repeat split; [exact Ea | constructor].
    + destruct IH as (l1 & y & l2 & Hl & Hy & Hl1).
      { destruct Hin as [->|Hin]; [congruence|]. exists x. split; assumption. }
      exists (a :: l1), y, l2. repeat split.
      * cbn. rewrite Hl. reflexivity.
      * exact Hy.
      * constructor; assumption.
Qed.

Lemma insert_middle {A : Type} (l1 l2 : list A) (x y : A) :
  <[length l1 := y]> (l1 ++ x :: l2) = l1 ++ y :: l2.
Proof.
  induction l1 as [|a l1 IH]; cbn; [reflexivity|]. f_equal. exact IH.
Qed.

Lemma splice_middle {A : Type} (l1 l2 : list A) (x : A) (c : gin.Context)
  (w : World) :
  splice (l1 ++ x :: l2) (length l1) c w = Ok (l1 ++ l2) c w.
Proof.
  unfold splice. destruct (decide _) as [_|Hn].
  - rewrite take_app_length.
    replace (drop (S (length l1)) (l1 ++ x :: l2)) with l2; [reflexivity|].
    rewrite cons_middle, app_assoc. symmetry. apply drop_app_length'.
    rewrite length_app. cbn. lia.
  - exfalso. apply Hn. rewrite length_app. cbn. lia.
Qed.

Lemma assign_users_middle (f : User.t -> User.t) (l1 l2 : list User.t)
  (u : User.t) (c : gin.Context) (w : World) :
  users w = l1 ++ u :: l2 ->
  assign_users (length l1) f c w = Ok tt c (set_users (l1 ++ f u :: l2) w).
Proof.
  intros Hu. unfold assign_users, bind, getW, at_index, modW. rewrite Hu.
  rewrite list_lookup_middle by reflexivity. cbn. rewrite insert_middle.
  reflexivity.
Qed.

Lemma assign_posts_middle (f : Post.t -> Post.t) (l1 l2 : list Post.t)
  (p : Post.t) (c : gin.Context) (w : World) :
  posts w = l1 ++ p :: l2 ->
  assign_posts (length l1) f c w = Ok tt c (set_posts (l1 ++ f p :: l2) w).
Proof.
  intros Hp. unfold assign_posts, bind, getW, at_index, modW. rewrite Hp.
  rewrite list_lookup_middle by reflexivity. cbn. rewrite insert_middle.
  reflexivity.
Qed.

(** Moving the loop one turn on: [pre] grows by the element just passed. *)
Lemma length_snoc {A : Type} (pre : list A) (a : A) :
  S (length pre) = length (pre ++ [a]).
Proof. rewrite length_app. cbn. lia. Qed.

(** *** updateUser *)

Lemma updateUser_range_hit (id : string) (updated : User.t)
  (c : gin.Context) (l1 l2 : list User.t) (u : User.t) :
  gin.Writer c = gin.newWriter ->
  gin.jsonUser (gin.Req c) = inr updated ->
  Forall (fun y => user_has_id id y = false) l1 ->
  user_has_id id u = true ->
  forall (pre : list User.t) (w : World),
    users w = pre ++ l1 ++ u :: l2 ->
    let u' := User.mk (User.ID u) (User.Username updated)
                      (User.Email updated) (User.Password updated)
                      (User.Created u) in
    updateUser_range id (length pre) (l1 ++ u :: l2) c w
    = Ok tt (answered http.StatusOK (gin.OfUser u') c)
            (set_users (pre ++ l1 ++ u' :: l2) w).
Proof.
  intros Hw Hj Hl1 Hu. induction Hl1 as [|a l1 Ha _ IH]; intros pre w Hus u'.
  - cbn [app updateUser_range]. unfold user_has_id in Hu. rewrite Hu.
    unfold bind at 1. rewrite (BindJSON_ok _ _ _ _ Hj).
    unfold bind at 1. rewrite (assign_users_middle _ pre l2 u) by exact Hus.
    unfold bind at 1.
    rewrite (assign_users_middle _ pre l2 (User.with_Username _ u))
      by reflexivity.
    unfold bind at 1.
    rewrite (assign_users_middle _ pre l2
               (User.with_Email _ (User.with_Username _ u))) by reflexivity.
    unfold bind, getW, at_index. cbn [set_users users].
    rewrite list_lookup_middle by reflexivity. cbn [ret].
    rewrite JSON_fresh; [reflexivity | reflexivity | exact Hw].
  - cbn [app updateUser_range]. unfold user_has_id in Ha. rewrite Ha.
    rewrite (length_snoc pre a).
    rewrite (IH (pre ++ [a]) w); [|rewrite <- app_assoc; exact Hus].
    rewrite <- app_assoc. reflexivity.
Qed.

(** C6, as amended: when some user's formatted identifier equals the path
    parameter and the body decodes, [updateUser] stops at the first such user
    in store order (the only one, when no other record formats to that
    parameter), overwrites its username, email and password from the body
    and keeps its identifier and creation timestamp; the records before and
    after it, the posts, the clock and the log are as they were; the answer
    is 200 with the updated record. *)
Theorem C6_updateUser_frame (c : gin.Context) (w : World) (updated : User.t) :
  gin.Writer c = gin.newWriter ->
  gin.jsonUser (gin.Req c) = inr updated ->
  (exists v, In v (users w)
             /\ Go.Sprintf_d (User.ID v) = gin.ByName (gin.Params c) "id") ->
  exists l1 u l2,
    first_hit (user_has_id (gin.ByName (gin.Params c) "id")) (users w) l1 u l2
    /\ let u' := User.mk (User.ID u) (User.Username updated)
                         (User.Email updated) (User.Password updated)
                         (User.Created u) in
       updateUser c w
       = Ok tt (answered http.StatusOK (gin.OfUser u') c)
               (mkWorld (l1 ++ u' :: l2) (posts w) (ticks w) (logs w))
       /\ forall v, sole_hit (user_has_id (gin.ByName (gin.Params c) "id"))
                             (users w) v -> u = v.
Proof.
  intros Hw Hj (v & Hin & Hv).
  destruct (first_hit_exists (user_has_id (gin.ByName (gin.Params c) "id"))
              (users w)) as (l1 & u & l2 & Hl & Hu & Hl1).
  { exists v. split; [exact Hin|]. unfold user_has_id. rewrite Hv.
    apply String.eqb_refl. }
  exists l1, u, l2. split; [repeat split; assumption|]. intros u'. split.
  - unfold updateUser, bind, Param, getC, getW. rewrite Hl.
    apply (updateUser_range_hit _ updated c l1 l2 u Hw Hj Hl1 Hu [] w Hl).
  - intros x Hx. apply Hx; [|exact Hu]. rewrite Hl. apply in_elt.
Qed.

(** *** deleteUser, then getUsers *)

Lemma deleteUser_range_hit (id : string) (c : gin.Context)
  (l1 l2 : list User.t) (u : User.t) :
  gin.Writer c = gin.newWriter ->
  Forall (fun y => user_has_id id y = false) l1 ->
  user_has_id id u = true ->
  forall (pre : list User.t) (w : World),
    users w = pre ++ l1 ++ u :: l2 ->
    deleteUser_range id (length pre) (l1 ++ u :: l2) c w
    = Ok tt (answered http.StatusOK (gin.H "message" "User deleted") c)
            (set_users (pre ++ l1 ++ l2) w).
Proof.
  intros Hw Hl1 Hu. induction Hl1 as [|a l1 Ha _ IH]; intros pre w Hus.
  - cbn [app deleteUser_range]. unfold user_has_id in Hu. rewrite Hu.
    change (users w = pre ++ u :: l2) in Hus.
    unfold bind, getW. rewrite Hus, splice_middle. unfold modW.
    rewrite JSON_fresh; [reflexivity | reflexivity | exact Hw].
  - cbn [app deleteUser_range]. unfold user_has_id in Ha. rewrite Ha.
    rewrite (length_snoc pre a).
    rewrite (IH (pre ++ [a]) w); [|rewrite <- app_assoc; exact Hus].
    rewrite <- app_assoc. reflexivity.
Qed.

Lemma getUsers_fresh (c : gin.Context) (w : World) :
  gin.Writer c = gin.newWriter ->
  getUsers c w
  = Ok tt (match users w with
           | [] => answered http.StatusNotFound
                            (gin.H "message" "No users found") c
           | _ :: _ => answered http.StatusOK (gin.OfUsers (users w)) c
           end) w.
Proof.
  intros Hw. unfold getUsers, bind, getW.
  destruct (users w) as [|a us] eqn:E.
  - cbn. apply JSON_fresh; [reflexivity | exact Hw].
  - replace (Go.len (a :: us) =? 0) with false.
    + rewrite E. apply JSON_fresh; [reflexivity | exact Hw].
    + symmetry. apply Z.eqb_neq. unfold Go.len. cbn [length]. lia.
Qed.

(** C9, as amended: when some user's formatted identifier equals the path
    parameter, [deleteUser] removes the first such user in store order and
    answers 200; [getUsers] right after it answers with the users that were
    before and after the removed one, in order, or with the 404 of the
    empty store when none is left.  Unless the store held the removed
    record twice, no listed record equals it; and the removed record is the
    only one that formats to the parameter, when there is only one. *)
Theorem C9_delete_then_list (c c2 : gin.Context) (w : World) :
  gin.Writer c = gin.newWriter ->
  gin.Writer c2 = gin.newWriter ->
  (exists v, In v (users w)
             /\ Go.Sprintf_d (User.ID v) = gin.ByName (gin.Params c) "id") ->
  exists l1 u l2,
    first_hit (user_has_id (gin.ByName (gin.Params c) "id")) (users w) l1 u l2
    /\ let w' := mkWorld (l1 ++ l2) (posts w) (ticks w) (logs w) in
       deleteUser c w
       = Ok tt (answered http.StatusOK (gin.H "message" "User deleted") c) w'
       /\ getUsers c2 w'
          = Ok tt (match l1 ++ l2 with
                   | [] => answered http.StatusNotFound
                                    (gin.H "message" "No users found") c2
                   | _ :: _ => answered http.StatusOK
                                        (gin.OfUsers (l1 ++ l2)) c2
                   end) w'
       /\ (NoDup (users w) -> ~ In u (l1 ++ l2))
       /\ forall v, sole_hit (user_has_id (gin.ByName (gin.Params c) "id"))
                             (users w) v -> u = v.
Proof.
  intros Hw Hw2 (v & Hin & Hv).
  destruct (first_hit_exists (user_has_id (gin.ByName (gin.Params c) "id"))
              (users w)) as (l1 & u & l2 & Hl & Hu & Hl1).
  { exists v. split; [exact Hin|]. unfold user_has_id. rewrite Hv.
    apply String.eqb_refl. }
  exists l1, u, l2. split; [repeat split; assumption|]. intros w'.
  split; [|split; [|split]].
  - unfold deleteUser, bind, Param, getC, getW. rewrite Hl.
    apply (deleteUser_range_hit _ c l1 l2 u Hw Hl1 Hu [] w Hl).
  - apply (getUsers_fresh c2 w' Hw2).
  - rewrite Hl. intros Hnd Hi. apply NoDup_app in Hnd as (_ & Hdisj & Hnd2).
    apply NoDup_cons in Hnd2 as (Hnot & _).
    apply in_app_or in Hi as [Hi|Hi].
    + apply (Hdisj u); [apply list_elem_of_In; exact Hi | left].
    + apply Hnot. apply list_elem_of_In. exact Hi.
  - intros x Hx. apply Hx; [|exact Hu]. rewrite Hl. apply in_elt.
Qed.

(** *** updatePost *)

Lemma updatePost_range_hit (id : string) (updated : Post.t)
  (c : gin.Context) (l1 l2 : list Post.t) (p : Post.t) :
  gin.Writer c = gin.newWriter ->
  gin.jsonPost (gin.Req c) = inr updated ->
  Forall (fun y => post_has_id id y = false) l1 ->
  post_has_id id p = true ->
  forall (pre : list Post.t) (w : World),
    posts w = pre ++ l1 ++ p :: l2 ->
    let p' := Post.mk (Post.ID p) (Post.Title updated) (Post.Content updated)
                      (Post.UserID p) (Post.Created p) in
    updatePost_range id (length pre) (l1 ++ p :: l2) c w
    = Ok tt (answered http.StatusOK (gin.OfPost p') c)
            (set_posts (pre ++ l1 ++ p' :: l2) w).
Proof.
  intros Hw Hj Hl1 Hp. induction Hl1 as [|a l1 Ha _ IH]; intros pre w Hps p'.
  - cbn [app updatePost_range]. unfold post_has_id in Hp. rewrite Hp.
    unfold bind at 1. rewrite (BindJSON_ok _ _ _ _ Hj).
    unfold bind at 1. rewrite (assign_posts_middle _ pre l2 p) by exact Hps.
    unfold bind at 1.
    rewrite (assign_posts_middle _ pre l2 (Post.with_Title _ p))
      by reflexivity.
    unfold bind, getW, at_index. cbn [set_posts posts].
    rewrite list_lookup_middle by reflexivity. cbn [ret].
    rewrite JSON_fresh; [reflexivity | reflexivity | exact Hw].
  - cbn [app updatePost_range]. unfold post_has_id in Ha. rewrite Ha.
    rewrite (length_snoc pre a).
    rewrite (IH (pre ++ [a]) w); [|rewrite <- app_assoc; exact Hps].
    rewrite <- app_assoc. reflexivity.
Qed.

(** Whatever the request, [updatePost] returns, and every post keeps its
    identifier, owner and creation timestamp. *)
Lemma updatePost_range_keeps_frame (id : string) (c : gin.Context)
  (rest : list Post.t) :
  forall (pre : list Post.t) (w : World),
    posts w = pre ++ rest ->
    exists c' w',
      updatePost_range id (length pre) rest c w = Ok tt c' w'
      /\ map post_frame (posts w') = map post_frame (posts w)
      /\ users w' = users w.
Proof.
  induction rest as [|a rest IH]; intros pre w Hps.
  - cbn [updatePost_range]. unfold JSON, modC. eauto.
  - cbn [updatePost_range].
    destruct (String.eqb (Go.Sprintf_d (Post.ID a)) id) eqn:E.
    + unfold bind at 1. unfold BindJSON, bind at 1, getC.
      destruct (gin.jsonPost (gin.Req c)) as [err|updated].
      * unfold bind, AbortWithStatus, JSON, modC, ret. eauto.
      * unfold ret at 1.
        unfold bind at 1.
        rewrite (assign_posts_middle _ pre rest a) by exact Hps.
        unfold bind at 1.
        rewrite (assign_posts_middle _ pre rest (Post.with_Title _ a))
          by reflexivity.
        unfold bind, getW, at_index. cbn [set_posts posts].
        rewrite list_lookup_middle by reflexivity.
        unfold ret, JSON, modC. eexists _, _. split; [reflexivity|].
        cbn [posts users set_posts]. split; [|reflexivity].
        rewrite Hps, !map_app. reflexivity.
    + rewrite (length_snoc pre a). apply IH. rewrite <- app_assoc. exact Hps.
Qed.

(** C10: [updatePost] never changes the owner, the identifier or the
    creation timestamp of any post, whatever the request carries; and when
    a post's formatted identifier equals the path parameter and the body
    decodes, the first such post gets the body's title and content and
    nothing else of the body, the owner named in the body included. *)
Theorem C10_updatePost_keeps_owner (c : gin.Context) (w : World) :
  (exists c' w',
     updatePost c w = Ok tt c' w'
     /\ map post_frame (posts w') = map post_frame (posts w)
     /\ users w' = users w)
  /\ forall updated : Post.t,
       gin.Writer c = gin.newWriter ->
       gin.jsonPost (gin.Req c) = inr updated ->
       (exists q, In q (posts w)
                  /\ Go.Sprintf_d (Post.ID q)
                     = gin.ByName (gin.Params c) "id") ->
       exists l1 p l2,
         first_hit (post_has_id (gin.ByName (gin.Params c) "id"))
                   (posts w) l1 p l2
         /\ let p' := Post.mk (Post.ID p) (Post.Title updated)
                              (Post.Content updated) (Post.UserID p)
                              (Post.Created p) in
            updatePost c w
            = Ok tt (answered http.StatusOK (gin.OfPost p') c)
                    (mkWorld (users w) (l1 ++ p' :: l2) (ticks w) (logs w)).
Proof.
  split.
  - unfold updatePost, bind, Param, getC, getW.
    apply (updatePost_range_keeps_frame _ c (posts w) [] w). reflexivity.
  - intros updated Hw Hj (q & Hin & Hq).
    destruct (first_hit_exists (post_has_id (gin.ByName (gin.Params c) "id"))
                (posts w)) as (l1 & p & l2 & Hl & Hp & Hl1).
    { exists q. split; [exact Hin|]. unfold post_has_id. rewrite Hq.
      apply String.eqb_refl. }
    exists l1, p, l2. split; [repeat split; assumption|]. intros p'.
    unfold updatePost, bind, Param, getC, getW. rewrite Hl.
    apply (updatePost_range_hit _ updated c l1 l2 p Hw Hj Hl1 Hp [] w Hl).
Qed.

(** ** The auth gate *)

Lemma AuthMiddleware_rejects (clock : nat -> Go.Time) (next : M unit)
  (c : gin.Context) (w : World) :
  gin.BasicAuth (gin.Req c) <> Some ("admin", "password123") ->
  AuthMiddleware clock next c w
  = Ok tt (gin.set_index gin.abortIndex
             (gin.render http.StatusUnauthorized
                         (gin.H "status" "unauthorized") c)) w.
Proof.
  intros Hbad. unfold AuthMiddleware, bind, getC.
  destruct (gin.BasicAuth (gin.Req c)) as [[u p]|]; [|reflexivity].
  cbn [dummyUser User.Username User.Password negb orb].
  destruct (String.eqb_spec u "admin") as [->|Hu]; [|reflexivity].
  destruct (String.eqb_spec p "password123") as [->|Hp]; [|reflexivity].
  contradiction.
Qed.

Lemma getValue_In (routes : list Route)
  (method path : string) (r : Route) (ps : list (string * string)) :
  getValue routes method path = Some (r, ps) -> In r routes.
Proof.
  induction routes as [|a routes IH]; cbn; [discriminate|].
  destruct (String.eqb (route_method a) method).
  - destruct (match_segments _ _).
    + intros [= <- _]. left. reflexivity.
    + intros H. right. exact (IH H).
  - intros H. right. exact (IH H).
Qed.

(** One call of [Next], spelled out. *)
Lemma Next_S (fuel : nat) (handlers : list HandlerFunc) (c : gin.Context)
  (w : World) :
  Next (S fuel) handlers c w
  = let c1 := gin.set_index (Go.int8_wrap (gin.index c + 1)) c in
    if gin.index c1 <? Go.int8_wrap (Go.len handlers) then
      match handler_at handlers (gin.index c1) c1 w with
      | Ok h c2 w2 =>
        match h (Next fuel handlers) c2 w2 with
        | Ok _ c3 w3 => Next fuel handlers c3 w3
        | Panic c3 w3 => Panic c3 w3
        | OutOfFuel => OutOfFuel
        end
      | Panic c2 w2 => Panic c2 w2
      | OutOfFuel => OutOfFuel
      end
    else Ok tt c1 w.
Proof.
  cbn [Next]. unfold bind, modC, getC. cbn zeta.
  destruct (_ <? _); reflexivity.
Qed.

(** Past the end of the chain [Next] only counts on. *)
Lemma Next_past_end (fuel : nat) (handlers : list HandlerFunc)
  (c : gin.Context) (w : World) :
  Go.int8_wrap (Go.len handlers) <= gin.index c + 1 < 128 ->
  Next (S fuel) handlers c w = Ok tt (gin.set_index (gin.index c + 1) c) w.
Proof.
  intros Hi. rewrite Next_S. cbn zeta.
  assert (Hwrap : Go.int8_wrap (gin.index c + 1) = gin.index c + 1).
  { unfold Go.int8_wrap. rewrite Z.mod_small; [lia|].
    assert (-128 <= Go.int8_wrap (Go.len handlers)).
    { unfold Go.int8_wrap.
      pose proof (Z.mod_pos_bound (Go.len handlers + 2 ^ 7) (2 ^ 8)). lia. }
    lia. }
  rewrite Hwrap. cbn [gin.index gin.set_index].
  replace (_ <? _) with false; [reflexivity|].
  symmetry. apply Z.ltb_ge. lia.
Qed.

Lemma protected_chain_rejects (clock : nat -> Go.Time) (fuel : nat)
  (h : M unit) (rq : gin.Request) (params : list (string * string))
  (w : World) :
  (5 <= fuel)%nat ->
  gin.BasicAuth rq <> Some ("admin", "password123") ->
  Next fuel (protected_chain clock h)
       (gin.mkContext rq params (-1) gin.newWriter) w
  = Ok tt
       (gin.mkContext rq params 67
          (gin.mkWriter http.StatusUnauthorized true
                        [gin.H "status" "unauthorized"]))
       (mkWorld (users w) (posts w) (S (S (S (S (ticks w)))))
          (logs w ++ [mkLogLine (gin.Method rq) (gin.Path rq)
                                (gin.RemoteAddr rq)
                                (clock (S (S (ticks w)))
                                 - clock (S (ticks w)))])).
Proof.
  intros Hfuel Hbad.
  do 5 (destruct fuel as [|fuel]; [lia|]). clear Hfuel.
  set (hs := protected_chain clock h).
  assert (Hlen : Go.int8_wrap (Go.len hs) = 5) by reflexivity.
  pose (out := gin.mkWriter http.StatusUnauthorized true
                            [gin.H "status" "unauthorized"]).
  (* AuthMiddleware, at index 3 *)
  assert (H3 : forall w0,
    Next (S (S fuel)) hs (gin.mkContext rq params 2 gin.newWriter) w0
    = Ok tt (gin.mkContext rq params 64 out) w0).
  { intros w0. rewrite Next_S. cbn zeta. cbn [gin.index gin.set_index].
    change (Go.int8_wrap (2 + 1)) with 3. rewrite Hlen.
    change (handler_at hs 3 ?c ?w) with (Ok (AuthMiddleware clock) c w).
    cbn match. rewrite AuthMiddleware_rejects by exact Hbad.
    rewrite Next_past_end; [reflexivity|]. rewrite Hlen. cbn.
    unfold gin.abortIndex. lia. }
  (* LoggerMiddleware, at index 2 *)
  assert (H2 : forall w0,
    Next (S (S (S fuel))) hs (gin.mkContext rq params 1 gin.newWriter) w0
    = Ok tt (gin.mkContext rq params 65 out)
         (mkWorld (users w0) (posts w0) (S (S (ticks w0)))
            (logs w0 ++ [mkLogLine (gin.Method rq) (gin.Path rq)
                                   (gin.RemoteAddr rq)
                                   (clock (S (ticks w0))
                                    - clock (ticks w0))]))).
  { intros w0. rewrite Next_S. cbn zeta. cbn [gin.index gin.set_index].
    change (Go.int8_wrap (1 + 1)) with 2. rewrite Hlen.
    change (handler_at hs 2 ?c ?w) with (Ok (LoggerMiddleware clock) c w).
    cbn match. unfold LoggerMiddleware, time_Now.
    unfold bind at 1. unfold bind at 1. unfold bind at 1.
    unfold getW at 1, modW at 1, ret at 1. cbn match beta.
    unfold bind at 1. rewrite H3.
    unfold bind, getW, modW, getC, ret. cbn -[Next Z.sub].
    rewrite Next_past_end; [reflexivity|]. rewrite Hlen. cbn.
    unfold gin.abortIndex. lia. }
  (* gin.Recovery, at index 1 *)
  assert (H1 : forall w0,
    Next (S (S (S (S fuel)))) hs (gin.mkContext rq params 0 gin.newWriter) w0
    = Ok tt (gin.mkContext rq params 66 out)
         (mkWorld (users w0) (posts w0) (S (S (ticks w0)))
            (logs w0 ++ [mkLogLine (gin.Method rq) (gin.Path rq)
                                   (gin.RemoteAddr rq)
                                   (clock (S (ticks w0))
                                    - clock (ticks w0))]))).
  { intros w0. rewrite Next_S. cbn zeta. cbn [gin.index gin.set_index].
    change (Go.int8_wrap (0 + 1)) with 1. rewrite Hlen.
    change (handler_at hs 1 ?c ?w) with (Ok ginRecovery c w).
    cbn match. unfold ginRecovery. rewrite H2.
    rewrite Next_past_end; [reflexivity|]. rewrite Hlen. cbn.
    unfold gin.abortIndex. lia. }
  (* gin.Logger, at index 0 *)
  rewrite Next_S. cbn zeta. cbn [gin.index gin.set_index].
  change (Go.int8_wrap (-1 + 1)) with 0. rewrite Hlen.
  change (handler_at hs 0 ?c ?w) with (Ok (ginLogger clock) c w).
  cbn match. unfold ginLogger, time_Now.
  unfold bind at 1. unfold bind at 1. unfold bind at 1.
  unfold getW at 1, modW at 1, ret at 1. cbn match beta.
  unfold bind at 1. rewrite H1.
  unfold bind, getW, modW, getC, ret. cbn -[Next Z.sub].
  rewrite Next_past_end; [reflexivity|]. rewrite Hlen. cbn.
    unfold gin.abortIndex. lia.
Qed.

(** C5: a request that falls on one of the post routes of [hew] and whose
    basic-auth credentials are absent or differ from admin/password123 is
    answered 401 by [AuthMiddleware], which aborts the chain: the route's
    handler is not run (the outcome is the same whatever handler stands
    behind the gate), and users and posts are as they were.  Only the clock
    readings and the log line of the logging middleware are added. *)
Theorem C5_auth_gate (clock : nat -> Go.Time) (fuel : nat)
  (rq : gin.Request) (w : World) (r : Route)
  (params : list (string * string)) :
  (5 <= fuel)%nat ->
  gin.BasicAuth rq <> Some ("admin", "password123") ->
  getValue (trees (hew clock)) (gin.Method rq) (gin.Path rq)
  = Some (r, params) ->
  route_path r = "/posts" \/ route_path r = "/posts/:id" ->
  let c' := gin.mkContext rq params 67
              (gin.mkWriter http.StatusUnauthorized true
                            [gin.H "status" "unauthorized"]) in
  let w' := mkWorld (users w) (posts w) (S (S (S (S (ticks w)))))
              (logs w ++ [mkLogLine (gin.Method rq) (gin.Path rq)
                                    (gin.RemoteAddr rq)
                                    (clock (S (S (ticks w)))
                                     - clock (S (ticks w)))]) in
  ServeHTTP fuel (hew clock) rq w = Some (Ok tt c' w')
  /\ (exists h, route_handlers r = protected_chain clock h)
  /\ (forall h : M unit,
        Next fuel (protected_chain clock h)
             (gin.mkContext rq params (-1) gin.newWriter) w
        = Ok tt c' w').
Proof.
  intros Hfuel Hbad Hget Hpath c' w'.
  assert (Hh : exists h, route_handlers r = protected_chain clock h).
  { apply getValue_In in Hget.
    cbv [hew Handle Use Group Default trees Handlers app In] in Hget.
    destruct Hget as [<-|[<-|[<-|[<-|[<-|[<-|[<-|[<-|[]]]]]]]]];
      cbn [route_path] in Hpath;
      try (destruct Hpath; discriminate);
      eexists; reflexivity. }
  split; [|split].
  - unfold ServeHTTP. rewrite Hget. destruct Hh as (h & ->).
    rewrite (protected_chain_rejects clock fuel h rq params w Hfuel Hbad).
    reflexivity.
  - exact Hh.
  - intros h.
    apply (protected_chain_rejects clock fuel h rq params w Hfuel Hbad).
Qed.

(** ** Identifiers after a deletion *)

(** C1: create alice, create bob, delete user 1, create carol, each through
    the router, starting from the empty store: carol is given identifier
    [len(users)+1 = 2], which bob already carries, and the store ends with
    two different records under one identifier. *)
Theorem C1_identifier_reused (clock : nat -> Go.Time) :
  exists w1 w2 w3 w4 u v,
    served clock 5
      (Sample.user_request "POST" "/users"
         (Sample.user 0 "alice" "a@x.com" "secret")) initial = Some w1
    /\ served clock 5
         (Sample.user_request "POST" "/users"
            (Sample.user 0 "bob" "b@x.com" "pw")) w1 = Some w2
    /\ served clock 5 (Sample.bare_request "DELETE" "/users/1") w2 = Some w3
    /\ served clock 5
         (Sample.user_request "POST" "/users"
            (Sample.user 0 "carol" "c@x.com" "hunter2")) w3 = Some w4
    /\ users w4 = [u; v]
    /\ User.Username u = "bob" /\ User.Username v = "carol"
    /\ User.ID v = Go.len (users w3) + 1
    /\ User.ID u = User.ID v.
Proof.
  do 6 eexists.
  split; [vm_compute; reflexivity|].
  split; [vm_compute; reflexivity|].
  split; [vm_compute; reflexivity|].
  split; [vm_compute; reflexivity|].
  split; [reflexivity|].
  repeat split.
Qed.

(** * The theorems at work on the sample data *)

(** C2 without the non-empty fields: bob is in the store and the request
    names bob, but its email is empty, so the handler stops at the
    validation and answers 400, not 409. *)
Lemma C2_counterexample :
  gin.Writer (Sample.context
                (Sample.user_request "POST" "/users"
                   (Sample.user 0 "bob" EmptyString "pw")) [])
  = gin.newWriter
  /\ gin.jsonUser
       (gin.Req (Sample.context
                   (Sample.user_request "POST" "/users"
                      (Sample.user 0 "bob" EmptyString "pw")) []))
     = inr (Sample.user 0 "bob" EmptyString "pw")
  /\ In Sample.bob (users Sample.two_users)
  /\ User.Username Sample.bob
     = User.Username (Sample.user 0 "bob" EmptyString "pw")
  /\ createUser Sample.clock
       (Sample.context
          (Sample.user_request "POST" "/users"
             (Sample.user 0 "bob" EmptyString "pw")) [])
       Sample.two_users
     = Ok tt
          (answered http.StatusBadRequest (gin.H "error" "Invalid user input")
             (Sample.context
                (Sample.user_request "POST" "/users"
                   (Sample.user 0 "bob" EmptyString "pw")) []))
          Sample.two_users
  /\ createUser Sample.clock
       (Sample.context
          (Sample.user_request "POST" "/users"
             (Sample.user 0 "bob" EmptyString "pw")) [])
       Sample.two_users
     <> Ok tt
          (answered http.StatusConflict (gin.H "error" "User already exists")
             (Sample.context
                (Sample.user_request "POST" "/users"
                   (Sample.user 0 "bob" EmptyString "pw")) []))
          Sample.two_users.
Proof.
  split; [reflexivity|]. split; [reflexivity|].
  split; [right; left; reflexivity|]. split; [reflexivity|].
  split; [reflexivity|]. vm_compute. discriminate.
Qed.

Lemma C2_createUser_duplicate_witness :
  (User.Username (Sample.user 0 "bob" "bob@new.org" "pw2") <> EmptyString
   /\ User.Email (Sample.user 0 "bob" "bob@new.org" "pw2") <> EmptyString
   /\ User.Password (Sample.user 0 "bob" "bob@new.org" "pw2") <> EmptyString)
  /\ In Sample.bob (users Sample.two_users)
  /\ createUser Sample.clock
       (Sample.context
          (Sample.user_request "POST" "/users"
             (Sample.user 0 "bob" "bob@new.org" "pw2")) [])
       Sample.two_users
     = Ok tt
          (answered http.StatusConflict (gin.H "error" "User already exists")
             (Sample.context
                (Sample.user_request "POST" "/users"
                   (Sample.user 0 "bob" "bob@new.org" "pw2")) []))
          Sample.two_users.
Proof.
  split; [repeat split; discriminate|].
  split; [right; left; reflexivity|].
  apply (C2_createUser_duplicate Sample.clock _ Sample.two_users
           (Sample.user 0 "bob" "bob@new.org" "pw2")).
  - reflexivity.
  - reflexivity.
  - repeat split; discriminate.
  - exists Sample.bob. split; [right; left; reflexivity | reflexivity].
Defined.

Lemma C3_createUser_empty_field_witness :
  User.Email (Sample.user 0 "dave" EmptyString "pw") = EmptyString
  /\ createUser Sample.clock
       (Sample.context
          (Sample.user_request "POST" "/users"
             (Sample.user 0 "dave" EmptyString "pw")) [])
       Sample.two_users
     = Ok tt
          (answered http.StatusBadRequest (gin.H "error" "Invalid user input")
             (Sample.context
                (Sample.user_request "POST" "/users"
                   (Sample.user 0 "dave" EmptyString "pw")) []))
          Sample.two_users.
Proof.
  split; [reflexivity|].
  apply (C3_createUser_empty_field Sample.clock _ Sample.two_users
           (Sample.user 0 "dave" EmptyString "pw")).
  - reflexivity.
  - reflexivity.
  - right. left. reflexivity.
Defined.

Lemma C4_createPost_unvalidated_witness :
  validatePostInput (Sample.post 0 EmptyString EmptyString 7) = false
  /\ createPost Sample.clock
       (gin.mkContext
          (Sample.post_request "POST" "/posts"
             (Some ("admin", "password123"))
             (Sample.post 0 EmptyString EmptyString 7))
          [] 4 gin.newWriter)
       Sample.two_posts
     = Ok tt
          (answered http.StatusCreated
             (gin.OfPost (Post.mk 3 EmptyString EmptyString 7 1025))
             (gin.mkContext
                (Sample.post_request "POST" "/posts"
                   (Some ("admin", "password123"))
                   (Sample.post 0 EmptyString EmptyString 7))
                [] 4 gin.newWriter))
          (mkWorld [Sample.alice; Sample.bob]
             [Sample.hello; Sample.again;
              Post.mk 3 EmptyString EmptyString 7 1025] 26 []).
Proof.
  pose proof (C4_createPost_unvalidated Sample.clock
                (gin.mkContext
                   (Sample.post_request "POST" "/posts"
                      (Some ("admin", "password123"))
                      (Sample.post 0 EmptyString EmptyString 7))
                   [] 4 gin.newWriter)
                Sample.two_posts (Sample.post 0 EmptyString EmptyString 7)
                eq_refl eq_refl) as [Hrun Hval].
  split.
  - apply Hval. split; reflexivity.
  - exact Hrun.
Defined.

Lemma C5_auth_gate_witness :
  gin.BasicAuth (Sample.post_request "DELETE" "/posts/2"
                   (Some ("admin", "letmein")) Sample.hello)
  <> Some ("admin", "password123")
  /\ ServeHTTP 5 (hew Sample.clock)
       (Sample.post_request "DELETE" "/posts/2"
          (Some ("admin", "letmein")) Sample.hello)
       Sample.two_posts
     = Some (Ok tt
               (gin.mkContext
                  (Sample.post_request "DELETE" "/posts/2"
                     (Some ("admin", "letmein")) Sample.hello)
                  [("id", "2")] 67
                  (gin.mkWriter http.StatusUnauthorized true
                                [gin.H "status" "unauthorized"]))
               (mkWorld [Sample.alice; Sample.bob]
                  [Sample.hello; Sample.again] 29
                  [mkLogLine "DELETE" "/posts/2" "10.0.0.7" 1])).
Proof.
  split; [discriminate|].
  apply (C5_auth_gate Sample.clock 5
           (Sample.post_request "DELETE" "/posts/2"
              (Some ("admin", "letmein")) Sample.hello)
           Sample.two_posts
           (mkRoute "DELETE" "/posts/:id"
                    (protected_chain Sample.clock deletePost))
           [("id", "2")]).
  - lia.
  - discriminate.
  - reflexivity.
  - right. reflexivity.
Defined.

Lemma C6_updateUser_frame_witness :
  In Sample.bob (users Sample.two_users)
  /\ Go.Sprintf_d (User.ID Sample.bob) = "2"
  /\ exists l1 u l2,
       first_hit (user_has_id "2") (users Sample.two_users) l1 u l2
       /\ updateUser
            (Sample.context
               (Sample.user_request "PUT" "/users/2"
                  (Sample.user 99 "robert" "r@x.com" "pw9"))
               [("id", "2")])
            Sample.two_users
          = Ok tt
               (answered http.StatusOK
                  (gin.OfUser
                     (User.mk (User.ID u) "robert" "r@x.com" "pw9"
                              (User.Created u)))
                  (Sample.context
                     (Sample.user_request "PUT" "/users/2"
                        (Sample.user 99 "robert" "r@x.com" "pw9"))
                     [("id", "2")]))
               (mkWorld
                  (l1 ++ User.mk (User.ID u) "robert" "r@x.com" "pw9"
                                 (User.Created u) :: l2)
                  [] 13 []).
Proof.
  split; [right; left; reflexivity|]. split; [reflexivity|].
  destruct (C6_updateUser_frame
              (Sample.context
                 (Sample.user_request "PUT" "/users/2"
                    (Sample.user 99 "robert" "r@x.com" "pw9"))
                 [("id", "2")])
              Sample.two_users (Sample.user 99 "robert" "r@x.com" "pw9")
              eq_refl eq_refl
              (ex_intro _ Sample.bob
                 (conj (or_intror (or_introl eq_refl)) eq_refl)))
    as (l1 & u & l2 & Hhit & Hrun & _).
  exists l1, u, l2. split; [exact Hhit | exact Hrun].
Defined.

Lemma C7_createUser_bob_witness :
  users initial = []
  /\ createUser Sample.clock
       (Sample.context
          (Sample.user_request "POST" "/users"
             (Sample.user 41 "bob" "b@x.com" "pw")) [])
       initial
     = Ok tt
          (answered http.StatusCreated
             (gin.OfUser (User.mk 1 "bob" "b@x.com" "pw" 1001))
             (Sample.context
                (Sample.user_request "POST" "/users"
                   (Sample.user 41 "bob" "b@x.com" "pw")) []))
          (mkWorld [User.mk 1 "bob" "b@x.com" "pw" 1001] [] 2 []).
Proof.
  split; [reflexivity|].
  apply (C7_createUser_bob Sample.clock _ initial
           (Sample.user 41 "bob" "b@x.com" "pw")).
  - reflexivity.
  - reflexivity.
  - repeat split.
  - reflexivity.
Defined.

Lemma C8_list_empty_is_404_witness :
  users initial = [] /\ posts initial = []
  /\ getUsers (Sample.context (Sample.bare_request "GET" "/users") [])
              initial
     = Ok tt
          (answered http.StatusNotFound (gin.H "message" "No users found")
             (Sample.context (Sample.bare_request "GET" "/users") []))
          initial
  /\ getPosts (Sample.context (Sample.bare_request "GET" "/posts") [])
              initial
     = Ok tt
          (answered http.StatusNotFound (gin.H "message" "No posts found")
             (Sample.context (Sample.bare_request "GET" "/posts") []))
          initial.
Proof.
  split; [reflexivity|]. split; [reflexivity|]. split.
  - apply (C8_list_empty_is_404
             (Sample.context (Sample.bare_request "GET" "/users") [])
             initial eq_refl).
    reflexivity.
  - apply (C8_list_empty_is_404
             (Sample.context (Sample.bare_request "GET" "/posts") [])
             initial eq_refl).
    reflexivity.
Defined.

Lemma C9_delete_then_list_witness :
  In Sample.alice (users Sample.two_users)
  /\ Go.Sprintf_d (User.ID Sample.alice) = "1"
  /\ exists l1 u l2,
       first_hit (user_has_id "1") (users Sample.two_users) l1 u l2
       /\ deleteUser
            (Sample.context (Sample.bare_request "DELETE" "/users/1")
                            [("id", "1")])
            Sample.two_users
          = Ok tt
               (answered http.StatusOK (gin.H "message" "User deleted")
                  (Sample.context (Sample.bare_request "DELETE" "/users/1")
                                  [("id", "1")]))
               (mkWorld (l1 ++ l2) [] 13 [])
       /\ ~ In u (l1 ++ l2).
Proof.
  split; [left; reflexivity|]. split; [reflexivity|].
  destruct (C9_delete_then_list
              (Sample.context (Sample.bare_request "DELETE" "/users/1")
                              [("id", "1")])
              (Sample.context (Sample.bare_request "GET" "/users") [])
              Sample.two_users eq_refl eq_refl
              (ex_intro _ Sample.alice (conj (or_introl eq_refl) eq_refl)))
    as (l1 & u & l2 & Hhit & Hdel & _ & Hgone & _).
  exists l1, u, l2. split; [exact Hhit|]. split; [exact Hdel|].
  apply Hgone. unfold Sample.two_users, users.
  repeat constructor; cbn; intros Hin; inversion Hin as [|? ? ? Hin'];
    try discriminate; inversion Hin'.
Defined.

Lemma C10_updatePost_keeps_owner_witness :
  In Sample.again (posts Sample.two_posts)
  /\ Go.Sprintf_d (Post.ID Sample.again) = "2"
  /\ exists l1 p l2,
       first_hit (post_has_id "2") (posts Sample.two_posts) l1 p l2
       /\ updatePost
            (gin.mkContext
               (Sample.post_request "PUT" "/posts/2"
                  (Some ("admin", "password123"))
                  (Sample.post 77 "edited" "new text" 1))
               [("id", "2")] 4 gin.newWriter)
            Sample.two_posts
          = Ok tt
               (answered http.StatusOK
                  (gin.OfPost
                     (Post.mk (Post.ID p) "edited" "new text" (Post.UserID p)
                              (Post.Created p)))
                  (gin.mkContext
                     (Sample.post_request "PUT" "/posts/2"
                        (Some ("admin", "password123"))
                        (Sample.post 77 "edited" "new text" 1))
                     [("id", "2")] 4 gin.newWriter))
               (mkWorld [Sample.alice; Sample.bob]
                  (l1 ++ Post.mk (Post.ID p) "edited" "new text"
                                 (Post.UserID p) (Post.Created p) :: l2)
                  25 []).
Proof.
  split; [right; left; reflexivity|]. split; [reflexivity|].
  destruct (C10_updatePost_keeps_owner
              (gin.mkContext
                 (Sample.post_request "PUT" "/posts/2"
                    (Some ("admin", "password123"))
                    (Sample.post 77 "edited" "new text" 1))
                 [("id", "2")] 4 gin.newWriter)
              Sample.two_posts) as [_ Hhit].
  destruct (Hhit (Sample.post 77 "edited" "new text" 1) eq_refl eq_refl
              (ex_intro _ Sample.again
                 (conj (or_intror (or_introl eq_refl)) eq_refl)))
    as (l1 & p & l2 & Hfirst & Hrun).
  exists l1, p, l2. split; [exact Hfirst | exact Hrun].
Defined.

(** ** The store with an identifier held twice

    [Cases.after_reuse] is what the router leaves after create alice,
    create bob, delete user 1, create carol: bob and carol both carry
    identifier 2. *)

(** C6 for any user under the parameter: carol's formatted identifier
    equals the path parameter 2 and the body decodes, yet [updateUser]
    stops at bob, who comes first.  It rewrites bob and answers with bob's
    record; carol, the user the statement was read for, keeps her
    username, email and password, and a record other than hers has
    changed. *)
Lemma C6_counterexample :
  Cases.by_router = Some Cases.after_reuse
  /\ gin.Writer Cases.put_user_2_robert = gin.newWriter
  /\ gin.jsonUser (gin.Req Cases.put_user_2_robert)
     = inr (Sample.user 0 "robert" "r@x.com" "pw9")
  /\ In Cases.carol2 (users Cases.after_reuse)
  /\ Go.Sprintf_d (User.ID Cases.carol2)
     = gin.ByName (gin.Params Cases.put_user_2_robert) "id"
  /\ updateUser Cases.put_user_2_robert Cases.after_reuse
     = Ok tt
          (answered http.StatusOK
             (gin.OfUser (User.mk 2 "robert" "r@x.com" "pw9" 1008))
             Cases.put_user_2_robert)
          (mkWorld [User.mk 2 "robert" "r@x.com" "pw9" 1008; Cases.carol2]
                   [] 20 Cases.four_lines)
  /\ updateUser Cases.put_user_2_robert Cases.after_reuse
     <> Ok tt
          (answered http.StatusOK
             (gin.OfUser (User.mk 2 "robert" "r@x.com" "pw9" 1017))
             Cases.put_user_2_robert)
          (mkWorld [Cases.bob2; User.mk 2 "robert" "r@x.com" "pw9" 1017]
                   [] 20 Cases.four_lines).
Proof.
  split; [vm_compute; reflexivity|]. split; [reflexivity|].
  split; [reflexivity|]. split; [right; left; reflexivity|].
  split; [reflexivity|]. split; [vm_compute; reflexivity|].
  vm_compute. discriminate.
Qed.

(** C9 for any user under the parameter: carol's formatted identifier
    equals the path parameter 2, yet [deleteUser] removes bob, who comes
    first, and [getUsers] right after it answers 200 with a list that
    still holds carol. *)
Lemma C9_counterexample :
  Cases.by_router = Some Cases.after_reuse
  /\ gin.Writer Cases.delete_user_2 = gin.newWriter
  /\ In Cases.carol2 (users Cases.after_reuse)
  /\ Go.Sprintf_d (User.ID Cases.carol2)
     = gin.ByName (gin.Params Cases.delete_user_2) "id"
  /\ deleteUser Cases.delete_user_2 Cases.after_reuse
     = Ok tt
          (answered http.StatusOK (gin.H "message" "User deleted")
                    Cases.delete_user_2)
          (mkWorld [Cases.carol2] [] 20 Cases.four_lines)
  /\ getUsers Cases.get_users
       (mkWorld [Cases.carol2] [] 20 Cases.four_lines)
     = Ok tt
          (answered http.StatusOK (gin.OfUsers [Cases.carol2])
                    Cases.get_users)
          (mkWorld [Cases.carol2] [] 20 Cases.four_lines)
  /\ In Cases.carol2 [Cases.carol2].
Proof.
  split; [vm_compute; reflexivity|]. split; [reflexivity|].
  split; [right; left; reflexivity|]. split; [reflexivity|].
  split; [vm_compute; reflexivity|]. split; [vm_compute; reflexivity|].
  left. reflexivity.
Qed.

(** ** With an identifier held twice

    In [Sample.reused] bob and carol both carry identifier 2.  The loops stop
    at bob, who comes first: an update of user 2 rewrites bob and leaves
    carol alone, a deletion of user 2 removes bob and keeps carol. *)

Example updateUser_reused_identifier :
  updateUser
    (Sample.context
       (Sample.user_request "PUT" "/users/2"
          (Sample.user 0 "robert" "r@x.com" "pw9"))
       [("id", "2")])
    Sample.reused
  = Ok tt
       (answered http.StatusOK
          (gin.OfUser (User.mk 2 "robert" "r@x.com" "pw9" 1009))
          (Sample.context
             (Sample.user_request "PUT" "/users/2"
                (Sample.user 0 "robert" "r@x.com" "pw9"))
             [("id", "2")]))
       (mkWorld [User.mk 2 "robert" "r@x.com" "pw9" 1009; Sample.carol]
                [] 22 []).
Proof. vm_compute. reflexivity. Qed.

Example deleteUser_reused_identifier :
  deleteUser
    (Sample.context (Sample.bare_request "DELETE" "/users/2") [("id", "2")])
    Sample.reused
  = Ok tt
       (answered http.StatusOK (gin.H "message" "User deleted")
          (Sample.context (Sample.bare_request "DELETE" "/users/2")
                          [("id", "2")]))
       (mkWorld [Sample.carol] [] 22 []).
Proof. vm_compute. reflexivity. Qed.

(** * Further properties of the handlers *)

(** ** No record under the identifier *)

Lemma updateUser_range_miss (id : string) (c : gin.Context) (w : World)
  (rest : list User.t) :
  Forall (fun y => user_has_id id y = false) rest ->
  forall i : nat,
    updateUser_range id i rest c w
    = JSON http.StatusNotFound (gin.H "message" "User not found") c w.
Proof.
  induction 1 as [|a rest Ha _ IH]; intros i; cbn [updateUser_range].
  - reflexivity.
  - unfold user_has_id in Ha. rewrite Ha. apply IH.
Qed.

Lemma deleteUser_range_miss (id : string) (c : gin.Context) (w : World)
  (rest : list User.t) :
  Forall (fun y => user_has_id id y = false) rest ->
  forall i : nat,
    deleteUser_range id i rest c w
    = JSON http.StatusNotFound (gin.H "message" "User not found") c w.
Proof.
  induction 1 as [|a rest Ha _ IH]; intros i; cbn [deleteUser_range].
  - reflexivity.
  - unfold user_has_id in Ha. rewrite Ha. apply IH.
Qed.

Lemma updatePost_range_miss (id : string) (c : gin.Context) (w : World)
  (rest : list Post.t) :
  Forall (fun y => post_has_id id y = false) rest ->
  forall i : nat,
    updatePost_range id i rest c w
    = JSON http.StatusNotFound (gin.H "message" "Post not found") c w.
Proof.
  induction 1 as [|a rest Ha _ IH]; intros i; cbn [updatePost_range].
  - reflexivity.
  - unfold post_has_id in Ha. rewrite Ha. apply IH.
Qed.

Lemma deletePost_range_miss (id : string) (c : gin.Context) (w : World)
  (rest : list Post.t) :
  Forall (fun y => post_has_id id y = false) rest ->
  forall i : nat,
    deletePost_range id i rest c w
    = JSON http.StatusNotFound (gin.H "message" "Post not found") c w.
Proof.
  induction 1 as [|a rest Ha _ IH]; intros i; cbn [deletePost_range].
  - reflexivity.
  - unfold post_has_id in Ha. rewrite Ha. apply IH.
Qed.

Lemma no_hit_Forall {A : Type} (fmt : A -> string) (id : string)
  (l : list A) :
  (forall v, In v l -> fmt v <> id) ->
  Forall (fun y => String.eqb (fmt y) id = false) l.
Proof.
  intros H. apply Forall_forall. intros y Hy. apply String.eqb_neq.
  apply H. apply list_elem_of_In. exact Hy.
Qed.

(** X1: when no user's formatted identifier equals the path parameter,
    [updateUser] and [deleteUser] both answer 404 "User not found" and
    return the world as it was; the body is not even decoded, so the
    context is not aborted whatever the body is. *)
Theorem users_by_id_not_found (c : gin.Context) (w : World) :
  gin.Writer c = gin.newWriter ->
  (forall v, In v (users w)
             -> Go.Sprintf_d (User.ID v) <> gin.ByName (gin.Params c) "id") ->
  updateUser c w
  = Ok tt (answered http.StatusNotFound
                    (gin.H "message" "User not found") c) w
  /\ deleteUser c w
     = Ok tt (answered http.StatusNotFound
                       (gin.H "message" "User not found") c) w.
Proof.
  intros Hw Hno.
  pose proof (no_hit_Forall (fun v => Go.Sprintf_d (User.ID v)) _ _ Hno)
    as Hall.
  split.
  - unfold updateUser, bind, Param, getC, getW.
    rewrite (updateUser_range_miss _ c w (users w) Hall).
    apply JSON_fresh; [reflexivity | exact Hw].
  - unfold deleteUser, bind, Param, getC, getW.
    rewrite (deleteUser_range_miss _ c w (users w) Hall).
    apply JSON_fresh; [reflexivity | exact Hw].
Qed.

(** X2: when no post's formatted identifier equals the path parameter,
    [updatePost] and [deletePost] both answer 404 "Post not found" and
    return the world as it was. *)
Theorem posts_by_id_not_found (c : gin.Context) (w : World) :
  gin.Writer c = gin.newWriter ->
  (forall q, In q (posts w)
             -> Go.Sprintf_d (Post.ID q) <> gin.ByName (gin.Params c) "id") ->
  updatePost c w
  = Ok tt (answered http.StatusNotFound
                    (gin.H "message" "Post not found") c) w
  /\ deletePost c w
     = Ok tt (answered http.StatusNotFound
                       (gin.H "message" "Post not found") c) w.
Proof.
  intros Hw Hno.
  pose proof (no_hit_Forall (fun q => Go.Sprintf_d (Post.ID q)) _ _ Hno)
    as Hall.
  split.
  - unfold updatePost, bind, Param, getC, getW.
    rewrite (updatePost_range_miss _ c w (posts w) Hall).
    apply JSON_fresh; [reflexivity | exact Hw].
  - unfold deletePost, bind, Param, getC, getW.
    rewrite (deletePost_range_miss _ c w (posts w) Hall).
    apply JSON_fresh; [reflexivity | exact Hw].
Qed.

(** ** A body that does not decode *)

Lemma BindJSON_error {A : Type} (decoded : gin.Request -> string + A)
  (c : gin.Context) (w : World) (err : string) :
  decoded (gin.Req c) = inl err ->
  BindJSON decoded c w
  = Ok (inl err) (gin.abortWithStatus http.StatusBadRequest c) w.
Proof.
  intros H. unfold BindJSON, bind, getC. rewrite H. reflexivity.
Qed.

Lemma error_after_abort (err : string) (c : gin.Context) (w : World) :
  gin.Writer c = gin.newWriter ->
  JSON http.StatusBadRequest (gin.H "error" err)
       (gin.abortWithStatus http.StatusBadRequest c) w
  = Ok tt (rejected err c) w.
Proof.
  intros Hw. unfold JSON, modC, gin.render, gin.abortWithStatus, rejected.
  cbn [gin.Writer gin.set_index gin.set_Writer gin.Req gin.Params gin.index].
  rewrite Hw. reflexivity.
Qed.

(** X3: a create request whose body does not decode is answered 400 with
    the decoder's error text, by [createUser] and by [createPost] alike;
    the context is left aborted and the world is returned as it was, the
    clock unread. *)
Theorem create_malformed_body (clock : nat -> Go.Time) (c : gin.Context)
  (w : World) (err : string) :
  gin.Writer c = gin.newWriter ->
  (gin.jsonUser (gin.Req c) = inl err ->
   createUser clock c w = Ok tt (rejected err c) w)
  /\ (gin.jsonPost (gin.Req c) = inl err ->
      createPost clock c w = Ok tt (rejected err c) w).
Proof.
  intros Hw. split; intros Hj.
  - unfold createUser, bind. rewrite (BindJSON_error _ _ _ _ Hj).
    apply error_after_abort. exact Hw.
  - unfold createPost, bind. rewrite (BindJSON_error _ _ _ _ Hj).
    apply error_after_abort. exact Hw.
Qed.

Lemma updateUser_range_bad_body (id err : string) (c : gin.Context)
  (w : World) (l1 l2 : list User.t) (u : User.t) :
  gin.Writer c = gin.newWriter ->
  gin.jsonUser (gin.Req c) = inl err ->
  Forall (fun y => user_has_id id y = false) l1 ->
  user_has_id id u = true ->
  forall i : nat,
    updateUser_range id i (l1 ++ u :: l2) c w = Ok tt (rejected err c) w.
Proof.
  intros Hw Hj Hl1 Hu. induction Hl1 as [|a l1 Ha _ IH]; intros i.
  - cbn [app updateUser_range]. unfold user_has_id in Hu. rewrite Hu.
    unfold bind. rewrite (BindJSON_error _ _ _ _ Hj).
    apply error_after_abort. exact Hw.
  - cbn [app updateUser_range]. unfold user_has_id in Ha. rewrite Ha.
    apply IH.
Qed.

Lemma updatePost_range_bad_body (id err : string) (c : gin.Context)
  (w : World) (l1 l2 : list Post.t) (p : Post.t) :
  gin.Writer c = gin.newWriter ->
  gin.jsonPost (gin.Req c) = inl err ->
  Forall (fun y => post_has_id id y = false) l1 ->
  post_has_id id p = true ->
  forall i : nat,
    updatePost_range id i (l1 ++ p :: l2) c w = Ok tt (rejected err c) w.
Proof.
  intros Hw Hj Hl1 Hp. induction Hl1 as [|a l1 Ha _ IH]; intros i.
  - cbn [app updatePost_range]. unfold post_has_id in Hp. rewrite Hp.
    unfold bind. rewrite (BindJSON_error _ _ _ _ Hj).
    apply error_after_abort. exact Hw.
  - cbn [app updatePost_range]. unfold post_has_id in Ha. rewrite Ha.
    apply IH.
Qed.

Lemma hit_from_formatted {A : Type} (fmt : A -> string) (id : string)
  (l : list A) :
  (exists v, In v l /\ fmt v = id) ->
  exists l1 x l2, first_hit (fun y => String.eqb (fmt y) id) l l1 x l2.
Proof.
  intros (v & Hin & Hv). apply first_hit_exists. exists v.
  split; [exact Hin|]. rewrite Hv. apply String.eqb_refl.
Qed.

(** X4: an update whose path parameter names an existing record but whose
    body does not decode is answered 400 with the decoder's error text; the
    matched record and the rest of the world are untouched.  The body is
    decoded only after the record is found, so the same body under an
    unknown identifier gets the 404 instead. *)
Theorem update_malformed_body (c : gin.Context) (w : World) (err : string) :
  gin.Writer c = gin.newWriter ->
  (gin.jsonUser (gin.Req c) = inl err ->
   (exists v, In v (users w)
              /\ Go.Sprintf_d (User.ID v) = gin.ByName (gin.Params c) "id") ->
   updateUser c w = Ok tt (rejected err c) w)
  /\ (gin.jsonPost (gin.Req c) = inl err ->
      (exists q, In q (posts w)
                 /\ Go.Sprintf_d (Post.ID q)
                    = gin.ByName (gin.Params c) "id") ->
      updatePost c w = Ok tt (rejected err c) w).
Proof.
  intros Hw. split; intros Hj Hex.
  - destruct (hit_from_formatted (fun v => Go.Sprintf_d (User.ID v)) _ _ Hex)
      as (l1 & u & l2 & Hl & Hu & Hl1).
    unfold updateUser, bind, Param, getC, getW. rewrite Hl.
    apply (updateUser_range_bad_body _ err c w l1 l2 u Hw Hj Hl1 Hu).
  - destruct (hit_from_formatted (fun q => Go.Sprintf_d (Post.ID q)) _ _ Hex)
      as (l1 & p & l2 & Hl & Hp & Hl1).
    unfold updatePost, bind, Param, getC, getW. rewrite Hl.
    apply (updatePost_range_bad_body _ err c w l1 l2 p Hw Hj Hl1 Hp).
Qed.

(** ** Deleting a post *)

Lemma deletePost_range_hit (id : string) (c : gin.Context)
  (l1 l2 : list Post.t) (p : Post.t) :
  gin.Writer c = gin.newWriter ->
  Forall (fun y => post_has_id id y = false) l1 ->
  post_has_id id p = true ->
  forall (pre : list Post.t) (w : World),
    posts w = pre ++ l1 ++ p :: l2 ->
    deletePost_range id (length pre) (l1 ++ p :: l2) c w
    = Ok tt (answered http.StatusOK (gin.H "message" "Post deleted") c)
            (set_posts (pre ++ l1 ++ l2) w).
Proof.
  intros Hw Hl1 Hp. induction Hl1 as [|a l1 Ha _ IH]; intros pre w Hps.
  - cbn [app deletePost_range]. unfold post_has_id in Hp. rewrite Hp.
    change (posts w = pre ++ p :: l2) in Hps.
    unfold bind, getW. rewrite Hps, splice_middle. unfold modW.
    rewrite JSON_fresh; [reflexivity | reflexivity | exact Hw].
  - cbn [app deletePost_range]. unfold post_has_id in Ha. rewrite Ha.
    rewrite (length_snoc pre a).
    rewrite (IH (pre ++ [a]) w); [|rewrite <- app_assoc; exact Hps].
    rewrite <- app_assoc. reflexivity.
Qed.

Lemma getPosts_fresh (c : gin.Context) (w : World) :
  gin.Writer c = gin.newWriter ->
  getPosts c w
  = Ok tt (match posts w with
           | [] => answered http.StatusNotFound
                            (gin.H "message" "No posts found") c
           | _ :: _ => answered http.StatusOK (gin.OfPosts (posts w)) c
           end) w.
Proof.
  intros Hw. unfold getPosts, bind, getW.
  destruct (posts w) as [|a ps] eqn:E.
  - cbn. apply JSON_fresh; [reflexivity | exact Hw].
  - replace (Go.len (a :: ps) =? 0) with false.
    + rewrite E. apply JSON_fresh; [reflexivity | exact Hw].
    + symmetry. apply Z.eqb_neq. unfold Go.len. cbn [length]. lia.
Qed.

(** X5: when some post's formatted identifier equals the path parameter,
    [deletePost] removes the first such post in store order, answers 200
    "Post deleted" and touches nothing else; [getPosts] right after it
    answers 200 with the posts that were before and after the removed one,
    in order, or the 404 of the empty store when none is left. *)
Theorem deletePost_then_list (c c2 : gin.Context) (w : World) :
  gin.Writer c = gin.newWriter ->
  gin.Writer c2 = gin.newWriter ->
  (exists q, In q (posts w)
             /\ Go.Sprintf_d (Post.ID q) = gin.ByName (gin.Params c) "id") ->
  exists l1 p l2,
    first_hit (post_has_id (gin.ByName (gin.Params c) "id")) (posts w) l1 p l2
    /\ let w' := mkWorld (users w) (l1 ++ l2) (ticks w) (logs w) in
       deletePost c w
       = Ok tt (answered http.StatusOK (gin.H "message" "Post deleted") c) w'
       /\ getPosts c2 w'
          = Ok tt (match l1 ++ l2 with
                   | [] => answered http.StatusNotFound
                                    (gin.H "message" "No posts found") c2
                   | _ :: _ => answered http.StatusOK
                                        (gin.OfPosts (l1 ++ l2)) c2
                   end) w'.
Proof.
  intros Hw Hw2 Hex.
  destruct (hit_from_formatted (fun q => Go.Sprintf_d (Post.ID q)) _ _ Hex)
    as (l1 & p & l2 & Hl & Hp & Hl1).
  exists l1, p, l2. split; [repeat split; assumption|]. intros w'. split.
  - unfold deletePost, bind, Param, getC, getW. rewrite Hl.
    apply (deletePost_range_hit _ c l1 l2 p Hw Hl1 Hp [] w Hl).
  - apply (getPosts_fresh c2 w' Hw2).
Qed.

(** ** Creating users, one after the other *)

Lemma userExists_range_false (us : list User.t) (username : string) :
  userExists_range us username = false
  <-> forall v, In v us -> User.Username v <> username.
Proof.
  split.
  - intros Hf v Hin Hv.
    assert (Ht : userExists_range us username = true).
    { apply userExists_range_true. exists v. split; assumption. }
    congruence.
  - intros Hno. destruct (userExists_range us username) eqn:E; [|reflexivity].
    apply userExists_range_true in E as (v & Hin & Hv).
    exfalso. exact (Hno v Hin Hv).
Qed.

(** X6: a decodable create-user request with three non-empty fields and a
    username no stored user has is answered 201 with the created record:
    the body's username, email and password under identifier
    [len(users)+1] and the handler's clock reading, whatever identifier and
    timestamp the body carried.  The record goes to the end of the store,
    and [getUsers] right after answers 200 with the old users followed by
    it. *)
Theorem createUser_then_list (clock : nat -> Go.Time) (c c2 : gin.Context)
  (w : World) (u : User.t) :
  gin.Writer c = gin.newWriter ->
  gin.Writer c2 = gin.newWriter ->
  gin.jsonUser (gin.Req c) = inr u ->
  validateUserInput u = true ->
  (forall v, In v (users w) -> User.Username v <> User.Username u) ->
  let created :=
    User.mk (Go.int_add (Go.len (users w)) 1) (User.Username u)
            (User.Email u) (User.Password u) (clock (ticks w)) in
  let w' := mkWorld (users w ++ [created]) (posts w) (S (ticks w)) (logs w) in
  createUser clock c w
  = Ok tt (answered http.StatusCreated (gin.OfUser created) c) w'
  /\ getUsers c2 w'
     = Ok tt (answered http.StatusOK (gin.OfUsers (users w ++ [created])) c2)
             w'.
Proof.
  intros Hw Hw2 Hj Hv Hnew created w'. split.
  - apply (createUser_created clock c w u Hw Hj Hv).
    apply userExists_range_false. exact Hnew.
  - rewrite (getUsers_fresh c2 w' Hw2). cbn [users w'].
    destruct (users w); reflexivity.
Qed.


(** ** What each handler can do to the stores *)

Lemma hit_or_miss {A : Type} (p : A -> bool) (l : list A) :
  Forall (fun y => p y = false) l \/ exists l1 x l2, first_hit p l l1 x l2.
Proof.
  induction l as [|a l IH].
  - left. constructor.
  - destruct (p a) eqn:Ea.
    + right. exists [], a, l. repeat split; [exact Ea | constructor].
    + destruct IH as [Hall | (l1 & x & l2 & Hl & Hx & Hl1)].
      * left. constructor; assumption.
      * right. exists (a :: l1), x, l2. repeat split.
        -- cbn. rewrite Hl. reflexivity.
        -- exact Hx.
        -- constructor; assumption.
Qed.

Lemma replied_answered (code : Z) (obj : gin.JSONValue) (c : gin.Context) :
  replied c (answered code obj c).
Proof. left. exists code, obj. reflexivity. Qed.

Lemma replied_rejected (err : string) (c : gin.Context) :
  replied c (rejected err c).
Proof. right. exists err. reflexivity. Qed.

Lemma replied_index (c c' : gin.Context) :
  replied c c' ->
  gin.Req c' = gin.Req c /\ gin.Params c' = gin.Params c
  /\ (gin.index c' = gin.index c \/ gin.index c' = gin.abortIndex).
Proof.
  intros [(code & obj & ->)|(err & ->)]; cbn; auto.
Qed.

(** [createUser] returns; the world is as it was, or one valid user with a
    new username has been appended and the clock read once. *)
Lemma createUser_cases (clock : nat -> Go.Time) (c : gin.Context) (w : World) :
  gin.Writer c = gin.newWriter ->
  exists c' w',
    createUser clock c w = Ok tt c' w'
    /\ replied c c'
    /\ (w' = w
        \/ exists u,
             validateUserInput u = true
             /\ userExists_range (users w) (User.Username u) = false
             /\ w' = mkWorld
                       (users w
                        ++ [User.mk (Go.int_add (Go.len (users w)) 1)
                                    (User.Username u) (User.Email u)
                                    (User.Password u) (clock (ticks w))])
                       (posts w) (S (ticks w)) (logs w)).
Proof.
  intros Hw. destruct (gin.jsonUser (gin.Req c)) as [err|u] eqn:Hj.
  - exists (rejected err c), w. split; [|split].
    + unfold createUser, bind. rewrite (BindJSON_error _ _ _ _ Hj).
      apply error_after_abort. exact Hw.
    + apply replied_rejected.
    + left. reflexivity.
  - destruct (validateUserInput u) eqn:Hv.
    + destruct (userExists_range (users w) (User.Username u)) eqn:Hex.
      * eexists _, w. split; [|split].
        -- unfold createUser, bind. rewrite (BindJSON_ok _ _ _ _ Hj), Hv.
           cbn [negb]. unfold userExists, bind, getW, ret. rewrite Hex.
           apply JSON_fresh; [reflexivity | exact Hw].
        -- apply replied_answered.
        -- left. reflexivity.
      * eexists _, _. split; [|split].
        -- apply (createUser_created clock c w u Hw Hj Hv Hex).
        -- apply replied_answered.
        -- right. exists u. repeat split; assumption.
    + eexists _, w. split; [|split].
      * unfold createUser, bind. rewrite (BindJSON_ok _ _ _ _ Hj), Hv.
        cbn [negb]. apply JSON_fresh; [reflexivity | exact Hw].
      * apply replied_answered.
      * left. reflexivity.
Qed.

(** [updateUser] returns; the world is as it was, or one user has had its
    username, email and password replaced, in place. *)
Lemma updateUser_cases (c : gin.Context) (w : World) :
  gin.Writer c = gin.newWriter ->
  exists c' w',
    updateUser c w = Ok tt c' w'
    /\ replied c c'
    /\ (w' = w
        \/ exists l1 u l2 updated,
             users w = l1 ++ u :: l2
             /\ w' = set_users
                       (l1 ++ User.mk (User.ID u) (User.Username updated)
                                      (User.Email updated)
                                      (User.Password updated)
                                      (User.Created u) :: l2) w).
Proof.
  intros Hw.
  destruct (hit_or_miss (user_has_id (gin.ByName (gin.Params c) "id"))
              (users w)) as [Hall | (l1 & u & l2 & Hl & Hu & Hl1)].
  - eexists _, w. split; [|split].
    + unfold updateUser, bind, Param, getC, getW.
      rewrite (updateUser_range_miss _ c w (users w) Hall).
      apply JSON_fresh; [reflexivity | exact Hw].
    + apply replied_answered.
    + left. reflexivity.
  - destruct (gin.jsonUser (gin.Req c)) as [err|updated] eqn:Hj.
    + exists (rejected err c), w. split; [|split].
      * unfold updateUser, bind, Param, getC, getW. rewrite Hl.
        apply (updateUser_range_bad_body _ err c w l1 l2 u Hw Hj Hl1 Hu).
      * apply replied_rejected.
      * left. reflexivity.
    + eexists _, _. split; [|split].
      * unfold updateUser, bind, Param, getC, getW. rewrite Hl.
        apply (updateUser_range_hit _ updated c l1 l2 u Hw Hj Hl1 Hu [] w Hl).
      * apply replied_answered.
      * right. exists l1, u, l2, updated. split; [exact Hl | reflexivity].
Qed.

(** [deleteUser] returns; the world is as it was, or one user has been cut
    out of the store. *)
Lemma deleteUser_cases (c : gin.Context) (w : World) :
  gin.Writer c = gin.newWriter ->
  exists c' w',
    deleteUser c w = Ok tt c' w'
    /\ replied c c'
    /\ (w' = w
        \/ exists l1 u l2,
             users w = l1 ++ u :: l2 /\ w' = set_users (l1 ++ l2) w).
Proof.
  intros Hw.
  destruct (hit_or_miss (user_has_id (gin.ByName (gin.Params c) "id"))
              (users w)) as [Hall | (l1 & u & l2 & Hl & Hu & Hl1)].
  - eexists _, w. split; [|split].
    + unfold deleteUser, bind, Param, getC, getW.
      rewrite (deleteUser_range_miss _ c w (users w) Hall).
      apply JSON_fresh; [reflexivity | exact Hw].
    + apply replied_answered.
    + left. reflexivity.
  - eexists _, _. split; [|split].
    + unfold deleteUser, bind, Param, getC, getW. rewrite Hl.
      apply (deleteUser_range_hit _ c l1 l2 u Hw Hl1 Hu [] w Hl).
    + apply replied_answered.
    + right. exists l1, u, l2. split; [exact Hl | reflexivity].
Qed.

(** [createPost] returns; the world is as it was, or one post has been
    appended and the clock read once. *)
Lemma createPost_cases (clock : nat -> Go.Time) (c : gin.Context) (w : World) :
  gin.Writer c = gin.newWriter ->
  exists c' w',
    createPost clock c w = Ok tt c' w'
    /\ replied c c'
    /\ (w' = w
        \/ exists p,
             w' = mkWorld (users w)
                    (posts w
                     ++ [Post.mk (Go.int_add (Go.len (posts w)) 1)
                                 (Post.Title p) (Post.Content p)
                                 (Post.UserID p) (clock (ticks w))])
                    (S (ticks w)) (logs w)).
Proof.
  intros Hw. destruct (gin.jsonPost (gin.Req c)) as [err|p] eqn:Hj.
  - exists (rejected err c), w. split; [|split].
    + unfold createPost, bind. rewrite (BindJSON_error _ _ _ _ Hj).
      apply error_after_abort. exact Hw.
    + apply replied_rejected.
    + left. reflexivity.
  - eexists _, _. split; [|split].
    + unfold createPost, bind. rewrite (BindJSON_ok _ _ _ _ Hj). cbn.
      rewrite JSON_fresh; [reflexivity | reflexivity | exact Hw].
    + apply replied_answered.
    + right. exists p. reflexivity.
Qed.

(** [updatePost] returns; the world is as it was, or one post has had its
    title and content replaced, in place. *)
Lemma updatePost_cases (c : gin.Context) (w : World) :
  gin.Writer c = gin.newWriter ->
  exists c' w',
    updatePost c w = Ok tt c' w'
    /\ replied c c'
    /\ (w' = w
        \/ exists l1 p l2 updated,
             posts w = l1 ++ p :: l2
             /\ w' = set_posts
                       (l1 ++ Post.mk (Post.ID p) (Post.Title updated)
                                      (Post.Content updated) (Post.UserID p)
                                      (Post.Created p) :: l2) w).
Proof.
  intros Hw.
  destruct (hit_or_miss (post_has_id (gin.ByName (gin.Params c) "id"))
              (posts w)) as [Hall | (l1 & p & l2 & Hl & Hp & Hl1)].
  - eexists _, w. split; [|split].
    + unfold updatePost, bind, Param, getC, getW.
      rewrite (updatePost_range_miss _ c w (posts w) Hall).
      apply JSON_fresh; [reflexivity | exact Hw].
    + apply replied_answered.
    + left. reflexivity.
  - destruct (gin.jsonPost (gin.Req c)) as [err|updated] eqn:Hj.
    + exists (rejected err c), w. split; [|split].
      * unfold updatePost, bind, Param, getC, getW. rewrite Hl.
        apply (updatePost_range_bad_body _ err c w l1 l2 p Hw Hj Hl1 Hp).
      * apply replied_rejected.
      * left. reflexivity.
    + eexists _, _. split; [|split].
      * unfold updatePost, bind, Param, getC, getW. rewrite Hl.
        apply (updatePost_range_hit _ updated c l1 l2 p Hw Hj Hl1 Hp [] w Hl).
      * apply replied_answered.
      * right. exists l1, p, l2, updated. split; [exact Hl | reflexivity].
Qed.

(** [deletePost] returns; the world is as it was, or one post has been cut
    out of the store. *)
Lemma deletePost_cases (c : gin.Context) (w : World) :
  gin.Writer c = gin.newWriter ->
  exists c' w',
    deletePost c w = Ok tt c' w'
    /\ replied c c'
    /\ (w' = w
        \/ exists l1 p l2,
             posts w = l1 ++ p :: l2 /\ w' = set_posts (l1 ++ l2) w).
Proof.
  intros Hw.
  destruct (hit_or_miss (post_has_id (gin.ByName (gin.Params c) "id"))
              (posts w)) as [Hall | (l1 & p & l2 & Hl & Hp & Hl1)].
  - eexists _, w. split; [|split].
    + unfold deletePost, bind, Param, getC, getW.
      rewrite (deletePost_range_miss _ c w (posts w) Hall).
      apply JSON_fresh; [reflexivity | exact Hw].
    + apply replied_answered.
    + left. reflexivity.
  - eexists _, _. split; [|split].
    + unfold deletePost, bind, Param, getC, getW. rewrite Hl.
      apply (deletePost_range_hit _ c l1 l2 p Hw Hl1 Hp [] w Hl).
    + apply replied_answered.
    + right. exists l1, p, l2. split; [exact Hl | reflexivity].
Qed.

(** The list handlers return, change nothing and write one response. *)
Lemma getUsers_cases (c : gin.Context) (w : World) :
  gin.Writer c = gin.newWriter ->
  exists c', getUsers c w = Ok tt c' w /\ replied c c'.
Proof.
  intros Hw. eexists. split; [apply (getUsers_fresh c w Hw)|].
  destruct (users w); apply replied_answered.
Qed.

Lemma getPosts_cases (c : gin.Context) (w : World) :
  gin.Writer c = gin.newWriter ->
  exists c', getPosts c w = Ok tt c' w /\ replied c c'.
Proof.
  intros Hw. eexists. split; [apply (getPosts_fresh c w Hw)|].
  destruct (posts w); apply replied_answered.
Qed.

(** X8: whatever the request, the four user handlers return without a
    panic, and none of them changes the posts or the log; listing changes
    nothing at all, an update keeps the number of users, their identifiers
    and their creation timestamps, a creation adds at most one user and a
    deletion removes at most one. *)
Theorem user_handlers_frame (clock : nat -> Go.Time) (c : gin.Context)
  (w : World) :
  gin.Writer c = gin.newWriter ->
  (exists c', getUsers c w = Ok tt c' w)
  /\ (exists c' w',
        createUser clock c w = Ok tt c' w'
        /\ posts w' = posts w /\ logs w' = logs w
        /\ (length (users w) <= length (users w') <= S (length (users w)))%nat)
  /\ (exists c' w',
        updateUser c w = Ok tt c' w'
        /\ posts w' = posts w /\ logs w' = logs w /\ ticks w' = ticks w
        /\ map User.ID (users w') = map User.ID (users w)
        /\ map User.Created (users w') = map User.Created (users w))
  /\ (exists c' w',
        deleteUser c w = Ok tt c' w'
        /\ posts w' = posts w /\ logs w' = logs w /\ ticks w' = ticks w
        /\ (length (users w') <= length (users w)
            <= S (length (users w')))%nat).
Proof.
  intros Hw. split; [|split; [|split]].
  - eexists. apply (getUsers_fresh c w Hw).
  - destruct (createUser_cases clock c w Hw) as (c' & w' & Hrun & _ & Hcase).
    exists c', w'. split; [exact Hrun|].
    destruct Hcase as [->|(u & _ & _ & ->)]; cbn [posts logs users].
    + repeat split; lia.
    + rewrite length_app. cbn [length]. repeat split; lia.
  - destruct (updateUser_cases c w Hw) as (c' & w' & Hrun & _ & Hcase).
    exists c', w'. split; [exact Hrun|].
    destruct Hcase as [->|(l1 & u & l2 & updated & Hl & ->)];
      cbn [posts logs ticks users set_users].
    + repeat split.
    + rewrite Hl, !map_app. repeat split.
  - destruct (deleteUser_cases c w Hw) as (c' & w' & Hrun & _ & Hcase).
    exists c', w'. split; [exact Hrun|].
    destruct Hcase as [->|(l1 & u & l2 & Hl & ->)];
      cbn [posts logs ticks users set_users].
    + repeat split; lia.
    + rewrite Hl, !length_app. cbn [length]. repeat split; lia.
Qed.

(** X9: whatever the request, the four post handlers return without a
    panic, and none of them changes the users or the log; listing changes
    nothing at all, an update keeps every post's identifier, owner and
    creation timestamp, a creation adds at most one post and a deletion
    removes at most one. *)
Theorem post_handlers_frame (clock : nat -> Go.Time) (c : gin.Context)
  (w : World) :
  gin.Writer c = gin.newWriter ->
  (exists c', getPosts c w = Ok tt c' w)
  /\ (exists c' w',
        createPost clock c w = Ok tt c' w'
        /\ users w' = users w /\ logs w' = logs w
        /\ (length (posts w) <= length (posts w') <= S (length (posts w)))%nat)
  /\ (exists c' w',
        updatePost c w = Ok tt c' w'
        /\ users w' = users w
        /\ map post_frame (posts w') = map post_frame (posts w))
  /\ (exists c' w',
        deletePost c w = Ok tt c' w'
        /\ users w' = users w /\ logs w' = logs w /\ ticks w' = ticks w
        /\ (length (posts w') <= length (posts w)
            <= S (length (posts w')))%nat).
Proof.
  intros Hw. split; [|split; [|split]].
  - eexists. apply (getPosts_fresh c w Hw).
  - destruct (createPost_cases clock c w Hw) as (c' & w' & Hrun & _ & Hcase).
    exists c', w'. split; [exact Hrun|].
    destruct Hcase as [->|(p & ->)]; cbn [posts logs users].
    + repeat split; lia.
    + rewrite length_app. cbn [length]. repeat split; lia.
  - unfold updatePost, bind, Param, getC, getW.
    destruct (updatePost_range_keeps_frame (gin.ByName (gin.Params c) "id")
                c (posts w) [] w eq_refl) as (c' & w' & Hrun & Hf & Hu).
    exists c', w'. repeat split; assumption.
  - destruct (deletePost_cases c w Hw) as (c' & w' & Hrun & _ & Hcase).
    exists c', w'. split; [exact Hrun|].
    destruct Hcase as [->|(l1 & p & l2 & Hl & ->)];
      cbn [posts logs ticks users set_posts].
    + repeat split; lia.
    + rewrite Hl, !length_app. cbn [length]. repeat split; lia.
Qed.

(** ** Usernames *)

Lemma distinct_snoc (names : list string) (name : string) :
  NoDup names -> ~ In name names -> NoDup (names ++ [name]).
Proof.
  intros Hnd Hnot. apply NoDup_app. split; [exact Hnd|]. split.
  - intros x Hx Hin. apply list_elem_of_In in Hx.
    apply list_elem_of_In in Hin. destruct Hin as [<-|[]]. exact (Hnot Hx).
  - apply NoDup_singleton.
Qed.

Lemma distinct_cut {A : Type} (l1 l2 : list A) (x : A) :
  NoDup (l1 ++ x :: l2) -> NoDup (l1 ++ l2).
Proof.
  intros H. apply NoDup_app in H as (H1 & Hd & H2).
  apply NoDup_cons in H2 as (_ & H2). apply NoDup_app.
  split; [exact H1|]. split; [|exact H2].
  intros y Hy Hin. apply (Hd y Hy). right. exact Hin.
Qed.

(** X10: [createUser] and [deleteUser] keep the store well formed: if the
    stored usernames are pairwise distinct and every stored user passes
    [validateUserInput], the same holds after either handler, whatever the
    request. *)
Theorem create_delete_keep_usernames (clock : nat -> Go.Time)
  (c : gin.Context) (w : World) :
  gin.Writer c = gin.newWriter ->
  NoDup (map User.Username (users w)) ->
  Forall (fun v => validateUserInput v = true) (users w) ->
  (exists c' w',
     createUser clock c w = Ok tt c' w'
     /\ NoDup (map User.Username (users w'))
     /\ Forall (fun v => validateUserInput v = true) (users w'))
  /\ (exists c' w',
        deleteUser c w = Ok tt c' w'
        /\ NoDup (map User.Username (users w'))
        /\ Forall (fun v => validateUserInput v = true) (users w')).
Proof.
  intros Hw Hnd Hval. split.
  - destruct (createUser_cases clock c w Hw) as (c' & w' & Hrun & _ & Hcase).
    exists c', w'. split; [exact Hrun|].
    destruct Hcase as [->|(u & Hv & Hex & ->)]; [split; assumption|].
    cbn [users]. split.
    + rewrite map_app. cbn [map User.Username]. apply distinct_snoc.
      * exact Hnd.
      * intros Hin. apply in_map_iff in Hin as (v & Hname & Hin).
        exact (proj1 (userExists_range_false _ _) Hex v Hin Hname).
    + apply Forall_app. split; [exact Hval|]. constructor; [|constructor].
      exact Hv.
  - destruct (deleteUser_cases c w Hw) as (c' & w' & Hrun & _ & Hcase).
    exists c', w'. split; [exact Hrun|].
    destruct Hcase as [->|(l1 & u & l2 & Hl & ->)]; [split; assumption|].
    cbn [users set_users]. rewrite Hl in Hnd, Hval. split.
    + rewrite map_app in *. cbn [map] in Hnd. exact (distinct_cut _ _ _ Hnd).
    + apply Forall_app in Hval as (H1 & H2). apply Forall_app.
      split; [exact H1|]. apply Forall_cons in H2 as (_ & H2). exact H2.
Qed.

(** X11: [updateUser] checks neither: when the body decodes and names the
    username of another stored user, the update still answers 200 and the
    store then holds that username twice; and the matched user takes an
    empty username, email or password from the body as it comes. *)
Theorem updateUser_unchecked (c : gin.Context) (w : World)
  (updated : User.t) (l1 l2 : list User.t) (u : User.t) :
  gin.Writer c = gin.newWriter ->
  gin.jsonUser (gin.Req c) = inr updated ->
  first_hit (user_has_id (gin.ByName (gin.Params c) "id")) (users w) l1 u l2 ->
  let u' := User.mk (User.ID u) (User.Username updated) (User.Email updated)
                    (User.Password updated) (User.Created u) in
  let w' := mkWorld (l1 ++ u' :: l2) (posts w) (ticks w) (logs w) in
  updateUser c w = Ok tt (answered http.StatusOK (gin.OfUser u') c) w'
  /\ ((exists v, In v (l1 ++ l2)
                 /\ User.Username v = User.Username updated) ->
      ~ NoDup (map User.Username (users w')))
  /\ (validateUserInput updated = false ->
      ~ Forall (fun v => validateUserInput v = true) (users w')).
Proof.
  intros Hw Hj (Hl & Hu & Hl1) u' w'. split; [|split].
  - unfold updateUser, bind, Param, getC, getW. rewrite Hl.
    apply (updateUser_range_hit _ updated c l1 l2 u Hw Hj Hl1 Hu [] w Hl).
  - intros (v & Hin & Hname) Hnd. cbn [users w'] in Hnd.
    rewrite map_app in Hnd. cbn [map] in Hnd.
    apply NoDup_app in Hnd as (_ & Hd & H2).
    apply NoDup_cons in H2 as (Hnot & _).
    apply in_app_or in Hin as [Hin|Hin].
    + apply (Hd (User.Username v)).
      * apply list_elem_of_In. apply in_map. exact Hin.
      * rewrite Hname. left.
    + apply Hnot. apply list_elem_of_In. cbn [u' User.Username].
      rewrite <- Hname. apply in_map. exact Hin.
  - intros Hbad Hall. cbn [users w'] in Hall.
    apply Forall_app in Hall as (_ & Hall).
    apply Forall_cons in Hall as (Hu' & _).
    unfold validateUserInput in Hu', Hbad. cbn in Hu'. congruence.
Qed.

(** ** Identifiers *)

Lemma int_add_one (n : nat) :
  Z.of_nat n < 2 ^ 63 - 1 ->
  Go.int_add (Z.of_nat n) 1 = Z.of_nat (S n).
Proof.
  intros Hn. unfold Go.int_add, Go.int_wrap.
  change (2 ^ 63) with 9223372036854775808 in *.
  change (2 ^ 64) with 18446744073709551616.
  rewrite Z.mod_small; lia.
Qed.

Lemma in_sequence_snoc (ids : list Z) :
  in_sequence ids -> in_sequence (ids ++ [Z.of_nat (S (length ids))]).
Proof.
  unfold in_sequence. intros H. rewrite length_app. cbn [length].
  rewrite Nat.add_1_r, seq_S, map_app. cbn [map]. rewrite <- H.
  reflexivity.
Qed.

Lemma in_sequence_NoDup (ids : list Z) : in_sequence ids -> NoDup ids.
Proof.
  unfold in_sequence. intros ->.
  apply (NoDup_fmap_2 Z.of_nat). apply NoDup_seq.
Qed.

(** X12: as long as nothing is deleted, identifiers count up from 1: if the
    stored users carry 1, 2, ..., n in store order (and n+1 is still an
    [int]), they do so after [createUser] and after [updateUser], whatever
    the request; such identifiers are pairwise distinct. *)
Theorem ids_stay_in_sequence (clock : nat -> Go.Time) (c : gin.Context)
  (w : World) :
  gin.Writer c = gin.newWriter ->
  in_sequence (map User.ID (users w)) ->
  Z.of_nat (length (users w)) < 2 ^ 63 - 1 ->
  (exists c' w',
     createUser clock c w = Ok tt c' w'
     /\ in_sequence (map User.ID (users w'))
     /\ NoDup (map User.ID (users w')))
  /\ (exists c' w',
        updateUser c w = Ok tt c' w'
        /\ in_sequence (map User.ID (users w'))
        /\ NoDup (map User.ID (users w'))).
Proof.
  intros Hw Hseq Hlen. split.
  - destruct (createUser_cases clock c w Hw) as (c' & w' & Hrun & _ & Hcase).
    exists c', w'. split; [exact Hrun|].
    assert (Hs : in_sequence (map User.ID (users w'))).
    { destruct Hcase as [->|(u & _ & _ & ->)]; [exact Hseq|].
      cbn [users]. rewrite map_app. cbn [map User.ID].
      unfold Go.len. rewrite int_add_one by exact Hlen.
      rewrite <- (length_map User.ID (users w)).
      apply in_sequence_snoc. exact Hseq. }
    split; [exact Hs | apply in_sequence_NoDup; exact Hs].
  - destruct (updateUser_cases c w Hw) as (c' & w' & Hrun & _ & Hcase).
    exists c', w'. split; [exact Hrun|].
    assert (Hs : in_sequence (map User.ID (users w'))).
    { destruct Hcase as [->|(l1 & u & l2 & updated & Hl & ->)]; [exact Hseq|].
      cbn [users set_users]. rewrite Hl in Hseq.
      rewrite map_app in *. exact Hseq. }
    split; [exact Hs | apply in_sequence_NoDup; exact Hs].
Qed.

(** X13: the collision after a deletion, in general.  When [deleteUser]
    removes a user and a remaining user carries the identifier
    [len(users)] of the store before the deletion, the next successful
    [createUser] gives that same identifier to the new record, which joins
    the remaining users at the end of the store. *)
Theorem delete_then_create_collides (clock : nat -> Go.Time)
  (c c2 : gin.Context) (w : World) (u2 : User.t)
  (l1 l2 : list User.t) (u v : User.t) :
  gin.Writer c = gin.newWriter ->
  gin.Writer c2 = gin.newWriter ->
  first_hit (user_has_id (gin.ByName (gin.Params c) "id")) (users w) l1 u l2 ->
  In v (l1 ++ l2) ->
  User.ID v = Go.len (users w) ->
  Z.of_nat (length (users w)) < 2 ^ 63 ->
  gin.jsonUser (gin.Req c2) = inr u2 ->
  validateUserInput u2 = true ->
  (forall x, In x (l1 ++ l2) -> User.Username x <> User.Username u2) ->
  exists c1 w1 c3 w3 created,
    deleteUser c w = Ok tt c1 w1
    /\ createUser clock c2 w1 = Ok tt c3 w3
    /\ users w3 = (l1 ++ l2) ++ [created]
    /\ User.Username created = User.Username u2
    /\ User.ID created = User.ID v.
Proof.
  intros Hw Hw2 (Hl & Hu & Hl1) Hin Hid Hlen Hj Hv Hnew.
  eexists _, _, _, _, _. split; [|split; [|split; [|split]]].
  - unfold deleteUser, bind, Param, getC, getW. rewrite Hl.
    apply (deleteUser_range_hit _ c l1 l2 u Hw Hl1 Hu [] w Hl).
  - apply (createUser_created clock c2 _ u2 Hw2 Hj Hv).
    apply userExists_range_false. exact Hnew.
  - reflexivity.
  - reflexivity.
  - cbn [User.ID users set_users app]. rewrite Hid, Hl. unfold Go.len.
    rewrite Hl in Hlen. rewrite length_app in *. cbn [length] in *.
    rewrite int_add_one
      by (change (2 ^ 63) with 9223372036854775808 in *; lia).
    rewrite length_app. cbn [length]. f_equal. lia.
Qed.

(** X14: a deletion is final when the identifier was held once: after
    [deleteUser] has removed the only user whose formatted identifier
    equals the path parameter, [updateUser] and a second [deleteUser] under
    the same parameter both answer 404 and change nothing. *)
Theorem deleted_user_is_gone (c c2 : gin.Context) (w : World)
  (l1 l2 : list User.t) (u : User.t) :
  gin.Writer c = gin.newWriter ->
  gin.Writer c2 = gin.newWriter ->
  gin.ByName (gin.Params c2) "id" = gin.ByName (gin.Params c) "id" ->
  first_hit (user_has_id (gin.ByName (gin.Params c) "id")) (users w) l1 u l2 ->
  Forall (fun y => user_has_id (gin.ByName (gin.Params c) "id") y = false)
         l2 ->
  let w' := mkWorld (l1 ++ l2) (posts w) (ticks w) (logs w) in
  deleteUser c w
  = Ok tt (answered http.StatusOK (gin.H "message" "User deleted") c) w'
  /\ updateUser c2 w'
     = Ok tt (answered http.StatusNotFound
                       (gin.H "message" "User not found") c2) w'
  /\ deleteUser c2 w'
     = Ok tt (answered http.StatusNotFound
                       (gin.H "message" "User not found") c2) w'.
Proof.
  intros Hw Hw2 Hid (Hl & Hu & Hl1) Hl2 w'.
  assert (Hall : Forall (fun y => user_has_id (gin.ByName (gin.Params c2) "id")
                                              y = false) (users w')).
  { rewrite Hid. cbn [users w']. apply Forall_app. split; assumption. }
  split; [|split].
  - unfold deleteUser, bind, Param, getC, getW. rewrite Hl.
    apply (deleteUser_range_hit _ c l1 l2 u Hw Hl1 Hu [] w Hl).
  - unfold updateUser, bind, Param, getC, getW.
    rewrite (updateUser_range_miss _ c2 w' (users w') Hall).
    apply JSON_fresh; [reflexivity | exact Hw2].
  - unfold deleteUser, bind, Param, getC, getW.
    rewrite (deleteUser_range_miss _ c2 w' (users w') Hall).
    apply JSON_fresh; [reflexivity | exact Hw2].
Qed.

(** ** Looking a record up by its identifier *)

Lemma to_int_proper (z : Z) :
  Z.to_int z <> Decimal.Pos Decimal.Nil
  /\ Z.to_int z <> Decimal.Neg Decimal.Nil.
Proof.
  destruct z as [|p|p]; cbn; split; try discriminate;
    intros [= H]; exact (DecimalPos.Unsigned.to_uint_nonnil p H).
Qed.

(** Two integers that print alike are equal. *)
Lemma Sprintf_d_inj (a b : Z) : Go.Sprintf_d a = Go.Sprintf_d b -> a = b.
Proof.
  unfold Go.Sprintf_d. intros H.
  assert (Hs : Some (Z.to_int a) = Some (Z.to_int b)).
  { destruct (to_int_proper a) as (Ha1 & Ha2).
    destruct (to_int_proper b) as (Hb1 & Hb2).
    rewrite <- (NilZero.isi (Z.to_int a) Ha1 Ha2).
    rewrite <- (NilZero.isi (Z.to_int b) Hb1 Hb2).
    rewrite H. reflexivity. }
  injection Hs as Hs. rewrite <- (DecimalZ.of_to a), <- (DecimalZ.of_to b).
  rewrite Hs. reflexivity.
Qed.

Lemma distinct_images {A B : Type} (f : A -> B) (l : list A) (x y : A) :
  NoDup (map f l) -> In x l -> In y l -> f x = f y -> x = y.
Proof.
  induction l as [|a l IH]; cbn [map]; intros Hnd Hx Hy Hf; [destruct Hx|].
  apply NoDup_cons in Hnd as (Hnot & Hnd).
  destruct Hx as [->|Hx], Hy as [->|Hy].
  - reflexivity.
  - exfalso. apply Hnot. apply list_elem_of_In. rewrite Hf.
    apply in_map. exact Hy.
  - exfalso. apply Hnot. apply list_elem_of_In. rewrite <- Hf.
    apply in_map. exact Hx.
  - exact (IH Hnd Hx Hy Hf).
Qed.

(** X15: comparing [fmt.Sprintf("%d", record.ID)] with the path parameter,
    as the update and delete loops do, is comparing integers when the
    parameter is the decimal form of one: the test under parameter
    [Sprintf("%d", n)] succeeds exactly on the records whose identifier is
    [n].  So when the stored identifiers are pairwise distinct, the only
    user those loops can stop at under a user's formatted identifier is
    that user. *)
Theorem lookup_by_formatted_id (n : Z) :
  (forall u : User.t,
     user_has_id (Go.Sprintf_d n) u = true <-> User.ID u = n)
  /\ (forall p : Post.t,
        post_has_id (Go.Sprintf_d n) p = true <-> Post.ID p = n)
  /\ (forall (w : World) (v : User.t),
        NoDup (map User.ID (users w)) ->
        In v (users w) ->
        User.ID v = n ->
        sole_hit (user_has_id (Go.Sprintf_d n)) (users w) v).
Proof.
  assert (Hu : forall u : User.t,
             user_has_id (Go.Sprintf_d n) u = true <-> User.ID u = n).
  { intros u. unfold user_has_id. rewrite String.eqb_eq. split.
    - apply Sprintf_d_inj.
    - intros ->. reflexivity. }
  split; [exact Hu|]. split.
  - intros p. unfold post_has_id. rewrite String.eqb_eq. split.
    + apply Sprintf_d_inj.
    + intros ->. reflexivity.
  - intros w v Hnd Hin Hid y Hy Hhit. apply Hu in Hhit.
    apply (distinct_images User.ID (users w) y v Hnd Hy Hin). congruence.
Qed.

Lemma findPostByID_range_Some (ps : list Post.t) (id : Z) (p : Post.t) :
  findPostByID_range ps id = Some p ->
  exists l1 l2, first_hit (post_has_ID id) ps l1 p l2.
Proof.
  induction ps as [|a ps IH]; cbn [findPostByID_range]; [discriminate|].
  destruct (Post.ID a =? id) eqn:E.
  - intros [= <-]. exists [], ps. repeat split; [exact E | constructor].
  - intros H. destruct (IH H) as (l1 & l2 & Hl & Hp & Hl1).
    exists (a :: l1), l2. repeat split.
    + cbn. rewrite Hl. reflexivity.
    + exact Hp.
    + constructor; assumption.
Qed.

Lemma findPostByID_range_None (ps : list Post.t) (id : Z) :
  findPostByID_range ps id = None ->
  forall q, In q ps -> Post.ID q <> id.
Proof.
  induction ps as [|a ps IH]; cbn [findPostByID_range]; [intros _ q []|].
  destruct (Post.ID a =? id) eqn:E; [discriminate|].
  intros H q [<-|Hq].
  - apply Z.eqb_neq. exact E.
  - exact (IH H q Hq).
Qed.

(** X16: [findPostByID] reads the store and changes nothing; it returns the
    first post in store order whose identifier is the one asked for, and
    nothing exactly when no stored post carries that identifier. *)
Theorem findPostByID_first (id : Z) (c : gin.Context) (w : World) :
  exists r,
    findPostByID id c w = Ok r c w
    /\ match r with
       | Some p => exists l1 l2, first_hit (post_has_ID id) (posts w) l1 p l2
       | None => forall q, In q (posts w) -> Post.ID q <> id
       end.
Proof.
  exists (findPostByID_range (posts w) id). split; [reflexivity|].
  destruct (findPostByID_range (posts w) id) as [p|] eqn:E.
  - apply findPostByID_range_Some. exact E.
  - apply findPostByID_range_None. exact E.
Qed.

Lemma findPostByID_range_snoc (ps : list Post.t) (p : Post.t) :
  (forall q, In q ps -> Post.ID q <> Post.ID p) ->
  findPostByID_range (ps ++ [p]) (Post.ID p) = Some p.
Proof.
  induction ps as [|a ps IH]; intros Hno; cbn [app findPostByID_range].
  - rewrite Z.eqb_refl. reflexivity.
  - replace (Post.ID a =? Post.ID p) with false.
    + apply IH. intros q Hq. apply Hno. right. exact Hq.
    + symmetry. apply Z.eqb_neq. apply Hno. left. reflexivity.
Qed.

(** X17: a post that [createPost] has just stored is found again under the
    identifier it was given, provided no older post carries that
    identifier; the post found has the body's title, content and owner. *)
Theorem createPost_then_find (clock : nat -> Go.Time) (c c2 : gin.Context)
  (w : World) (p : Post.t) :
  gin.Writer c = gin.newWriter ->
  gin.jsonPost (gin.Req c) = inr p ->
  (forall q, In q (posts w)
             -> Post.ID q <> Go.int_add (Go.len (posts w)) 1) ->
  let created :=
    Post.mk (Go.int_add (Go.len (posts w)) 1) (Post.Title p)
            (Post.Content p) (Post.UserID p) (clock (ticks w)) in
  let w' := mkWorld (users w) (posts w ++ [created]) (S (ticks w))
                    (logs w) in
  createPost clock c w
  = Ok tt (answered http.StatusCreated (gin.OfPost created) c) w'
  /\ findPostByID (Post.ID created) c2 w' = Ok (Some created) c2 w'.
Proof.
  intros Hw Hj Hno created w'. split.
  - unfold createPost, bind. rewrite (BindJSON_ok _ _ _ _ Hj). cbn.
    rewrite JSON_fresh; [reflexivity | reflexivity | exact Hw].
  - unfold findPostByID, bind, getW, ret. cbn [posts w'].
    rewrite (findPostByID_range_snoc (posts w) created Hno). reflexivity.
Qed.

(** ** Through the router, to the handler *)

Lemma AuthMiddleware_accepts (clock : nat -> Go.Time) (next : M unit)
  (c : gin.Context) (w : World) :
  gin.BasicAuth (gin.Req c) = Some ("admin", "password123") ->
  AuthMiddleware clock next c w = next c w.
Proof.
  intros Hok. unfold AuthMiddleware, bind, getC. rewrite Hok. reflexivity.
Qed.

(** Where [Next] leaves a context that it found at or past the end of a
    chain of [n] handlers. *)
Lemma Next_counts_on (fuel : nat) (handlers : list HandlerFunc)
  (c : gin.Context) (w : World) (k : Z) :
  Go.int8_wrap (Go.len handlers) <= gin.index c + 1 < 128 ->
  k = gin.index c + 1 ->
  Next (S fuel) handlers c w
  = Ok tt (gin.mkContext (gin.Req c) (gin.Params c) k (gin.Writer c)) w.
Proof.
  intros Hi ->. rewrite Next_past_end by exact Hi. reflexivity.
Qed.

Lemma public_chain_runs (clock : nat -> Go.Time) (fuel : nat) (h : M unit)
  (rq : gin.Request) (params : list (string * string)) (w : World)
  (c' : gin.Context) (w' : World) :
  (5 <= fuel)%nat ->
  h (gin.mkContext rq params 3 gin.newWriter)
    (mkWorld (users w) (posts w) (S (S (ticks w))) (logs w))
  = Ok tt c' w' ->
  3 <= gin.index c' <= 63 ->
  Next fuel (public_chain clock h)
       (gin.mkContext rq params (-1) gin.newWriter) w
  = Ok tt
       (gin.mkContext (gin.Req c') (gin.Params c') (gin.index c' + 4)
                      (gin.Writer c'))
       (mkWorld (users w') (posts w') (S (S (ticks w')))
          (logs w' ++ [mkLogLine (gin.Method (gin.Req c'))
                                 (gin.Path (gin.Req c'))
                                 (gin.RemoteAddr (gin.Req c'))
                                 (clock (ticks w') - clock (S (ticks w)))])).
Proof.
  intros Hfuel Hh Hidx.
  do 5 (destruct fuel as [|fuel]; [lia|]). clear Hfuel.
  set (hs := public_chain clock h).
  assert (Hlen : Go.int8_wrap (Go.len hs) = 4) by reflexivity.
  set (w1 := set_ticks (S (ticks w)) w).
  (* the handler, at index 3 *)
  assert (H3 :
    Next (S (S fuel)) hs (gin.mkContext rq params 2 gin.newWriter)
         (set_ticks (S (ticks w1)) w1)
    = Ok tt (gin.mkContext (gin.Req c') (gin.Params c') (gin.index c' + 1)
                           (gin.Writer c')) w').
  { rewrite Next_S. cbn zeta. cbn [gin.index gin.set_index].
    change (Go.int8_wrap (2 + 1)) with 3. rewrite Hlen.
    change (handler_at hs 3 ?c ?w0) with (Ok (handler h) c w0).
    cbn match. unfold handler.
    change (set_ticks (S (ticks w1)) w1)
      with (mkWorld (users w) (posts w) (S (S (ticks w))) (logs w)).
    try change (gin.set_index 3 _)
      with (gin.mkContext rq params 3 gin.newWriter).
    rewrite Hh.
    rewrite (Next_counts_on _ _ _ _ (gin.index c' + 1));
      [reflexivity | rewrite Hlen; lia | reflexivity]. }
  (* LoggerMiddleware, at index 2 *)
  assert (H2 :
    Next (S (S (S fuel))) hs (gin.mkContext rq params 1 gin.newWriter) w1
    = Ok tt (gin.mkContext (gin.Req c') (gin.Params c') (gin.index c' + 2)
                           (gin.Writer c'))
         (mkWorld (users w') (posts w') (S (ticks w'))
            (logs w' ++ [mkLogLine (gin.Method (gin.Req c'))
                                   (gin.Path (gin.Req c'))
                                   (gin.RemoteAddr (gin.Req c'))
                                   (clock (ticks w')
                                    - clock (S (ticks w)))]))).
  { rewrite Next_S. cbn zeta. cbn [gin.index gin.set_index].
    change (Go.int8_wrap (1 + 1)) with 2. rewrite Hlen.
    try change (gin.set_index 2 _)
      with (gin.mkContext rq params 2 gin.newWriter).
    change (handler_at hs 2 ?c ?w0) with (Ok (LoggerMiddleware clock) c w0).
    cbn match. unfold LoggerMiddleware, time_Now.
    unfold bind at 1. unfold bind at 1. unfold bind at 1.
    unfold getW at 1, modW at 1, ret at 1. cbn match beta.
    unfold bind at 1. rewrite H3.
    unfold bind, getW, modW, getC, ret. cbn -[Next Z.sub].
    rewrite (Next_counts_on _ _ _ _ (gin.index c' + 2));
      [reflexivity | cbn [gin.index]; rewrite Hlen; lia
      | cbn [gin.index]; lia]. }
  (* gin.Recovery, at index 1 *)
  assert (H1 :
    Next (S (S (S (S fuel)))) hs (gin.mkContext rq params 0 gin.newWriter) w1
    = Ok tt (gin.mkContext (gin.Req c') (gin.Params c') (gin.index c' + 3)
                           (gin.Writer c'))
         (mkWorld (users w') (posts w') (S (ticks w'))
            (logs w' ++ [mkLogLine (gin.Method (gin.Req c'))
                                   (gin.Path (gin.Req c'))
                                   (gin.RemoteAddr (gin.Req c'))
                                   (clock (ticks w')
                                    - clock (S (ticks w)))]))).
  { rewrite Next_S. cbn zeta. cbn [gin.index gin.set_index].
    change (Go.int8_wrap (0 + 1)) with 1. rewrite Hlen.
    try change (gin.set_index 1 _)
      with (gin.mkContext rq params 1 gin.newWriter).
    change (handler_at hs 1 ?c ?w0) with (Ok ginRecovery c w0).
    cbn match. unfold ginRecovery. rewrite H2.
    rewrite (Next_counts_on _ _ _ _ (gin.index c' + 3));
      [reflexivity | cbn [gin.index]; rewrite Hlen; lia
      | cbn [gin.index]; lia]. }
  (* gin.Logger, at index 0 *)
  rewrite Next_S. cbn zeta. cbn [gin.index gin.set_index].
  change (Go.int8_wrap (-1 + 1)) with 0. rewrite Hlen.
  try change (gin.set_index 0 _)
    with (gin.mkContext rq params 0 gin.newWriter).
  change (handler_at hs 0 ?c ?w0) with (Ok (ginLogger clock) c w0).
  cbn match. unfold ginLogger, time_Now.
  unfold bind at 1. unfold bind at 1. unfold bind at 1.
  unfold getW at 1, modW at 1, ret at 1. cbn match beta.
  unfold bind at 1. fold w1. rewrite H1.
  unfold bind, getW, modW, getC, ret. cbn -[Next Z.sub].
  rewrite (Next_counts_on _ _ _ _ (gin.index c' + 4));
    [reflexivity | cbn [gin.index]; rewrite Hlen; lia | cbn [gin.index]; lia].
Qed.

Lemma protected_chain_runs (clock : nat -> Go.Time) (fuel : nat) (h : M unit)
  (rq : gin.Request) (params : list (string * string)) (w : World)
  (c' : gin.Context) (w' : World) :
  (6 <= fuel)%nat ->
  gin.BasicAuth rq = Some ("admin", "password123") ->
  h (gin.mkContext rq params 4 gin.newWriter)
    (mkWorld (users w) (posts w) (S (S (ticks w))) (logs w))
  = Ok tt c' w' ->
  4 <= gin.index c' <= 63 ->
  Next fuel (protected_chain clock h)
       (gin.mkContext rq params (-1) gin.newWriter) w
  = Ok tt
       (gin.mkContext (gin.Req c') (gin.Params c') (gin.index c' + 5)
                      (gin.Writer c'))
       (mkWorld (users w') (posts w') (S (S (ticks w')))
          (logs w' ++ [mkLogLine (gin.Method (gin.Req c'))
                                 (gin.Path (gin.Req c'))
                                 (gin.RemoteAddr (gin.Req c'))
                                 (clock (ticks w') - clock (S (ticks w)))])).
Proof.
  intros Hfuel Hauth Hh Hidx.
  do 6 (destruct fuel as [|fuel]; [lia|]). clear Hfuel.
  set (hs := protected_chain clock h).
  assert (Hlen : Go.int8_wrap (Go.len hs) = 5) by reflexivity.
  set (w1 := set_ticks (S (ticks w)) w).
  (* the handler, at index 4 *)
  assert (H4 :
    Next (S (S fuel)) hs (gin.mkContext rq params 3 gin.newWriter)
         (set_ticks (S (ticks w1)) w1)
    = Ok tt (gin.mkContext (gin.Req c') (gin.Params c') (gin.index c' + 1)
                           (gin.Writer c')) w').
  { rewrite Next_S. cbn zeta. cbn [gin.index gin.set_index].
    change (Go.int8_wrap (3 + 1)) with 4. rewrite Hlen.
    change (handler_at hs 4 ?c ?w0) with (Ok (handler h) c w0).
    cbn match. unfold handler.
    change (set_ticks (S (ticks w1)) w1)
      with (mkWorld (users w) (posts w) (S (S (ticks w))) (logs w)).
    try change (gin.set_index 4 _)
      with (gin.mkContext rq params 4 gin.newWriter).
    rewrite Hh.
    rewrite (Next_counts_on _ _ _ _ (gin.index c' + 1));
      [reflexivity | rewrite Hlen; lia | reflexivity]. }
  (* AuthMiddleware, at index 3 *)
  assert (H3 :
    Next (S (S (S fuel))) hs (gin.mkContext rq params 2 gin.newWriter)
         (set_ticks (S (ticks w1)) w1)
    = Ok tt (gin.mkContext (gin.Req c') (gin.Params c') (gin.index c' + 2)
                           (gin.Writer c')) w').
  { rewrite Next_S. cbn zeta. cbn [gin.index gin.set_index].
    change (Go.int8_wrap (2 + 1)) with 3. rewrite Hlen.
    change (handler_at hs 3 ?c ?w0) with (Ok (AuthMiddleware clock) c w0).
    cbn match. rewrite AuthMiddleware_accepts by exact Hauth.
    try change (gin.set_index 3 _)
      with (gin.mkContext rq params 3 gin.newWriter).
    rewrite H4.
    rewrite (Next_counts_on _ _ _ _ (gin.index c' + 2));
      [reflexivity | cbn [gin.index]; rewrite Hlen; lia
      | cbn [gin.index]; lia]. }
  (* LoggerMiddleware, at index 2 *)
  assert (H2 :
    Next (S (S (S (S fuel)))) hs (gin.mkContext rq params 1 gin.newWriter) w1
    = Ok tt (gin.mkContext (gin.Req c') (gin.Params c') (gin.index c' + 3)
                           (gin.Writer c'))
         (mkWorld (users w') (posts w') (S (ticks w'))
            (logs w' ++ [mkLogLine (gin.Method (gin.Req c'))
                                   (gin.Path (gin.Req c'))
                                   (gin.RemoteAddr (gin.Req c'))
                                   (clock (ticks w')
                                    - clock (S (ticks w)))]))).
  { rewrite Next_S. cbn zeta. cbn [gin.index gin.set_index].
    change (Go.int8_wrap (1 + 1)) with 2. rewrite Hlen.
    try change (gin.set_index 2 _)
      with (gin.mkContext rq params 2 gin.newWriter).
    change (handler_at hs 2 ?c ?w0) with (Ok (LoggerMiddleware clock) c w0).
    cbn match. unfold LoggerMiddleware, time_Now.
    unfold bind at 1. unfold bind at 1. unfold bind at 1.
    unfold getW at 1, modW at 1, ret at 1. cbn match beta.
    unfold bind at 1. rewrite H3.
    unfold bind, getW, modW, getC, ret. cbn -[Next Z.sub].
    rewrite (Next_counts_on _ _ _ _ (gin.index c' + 3));
      [reflexivity | cbn [gin.index]; rewrite Hlen; lia
      | cbn [gin.index]; lia]. }
  (* gin.Recovery, at index 1 *)
  assert (H1 :
    Next (S (S (S (S (S fuel))))) hs
         (gin.mkContext rq params 0 gin.newWriter) w1
    = Ok tt (gin.mkContext (gin.Req c') (gin.Params c') (gin.index c' + 4)
                           (gin.Writer c'))
         (mkWorld (users w') (posts w') (S (ticks w'))
            (logs w' ++ [mkLogLine (gin.Method (gin.Req c'))
                                   (gin.Path (gin.Req c'))
                                   (gin.RemoteAddr (gin.Req c'))
                                   (clock (ticks w')
                                    - clock (S (ticks w)))]))).
  { rewrite Next_S. cbn zeta. cbn [gin.index gin.set_index].
    change (Go.int8_wrap (0 + 1)) with 1. rewrite Hlen.
    try change (gin.set_index 1 _)
      with (gin.mkContext rq params 1 gin.newWriter).
    change (handler_at hs 1 ?c ?w0) with (Ok ginRecovery c w0).
    cbn match. unfold ginRecovery. rewrite H2.
    rewrite (Next_counts_on _ _ _ _ (gin.index c' + 4));
      [reflexivity | cbn [gin.index]; rewrite Hlen; lia
      | cbn [gin.index]; lia]. }
  (* gin.Logger, at index 0 *)
  rewrite Next_S. cbn zeta. cbn [gin.index gin.set_index].
  change (Go.int8_wrap (-1 + 1)) with 0. rewrite Hlen.
  try change (gin.set_index 0 _)
    with (gin.mkContext rq params 0 gin.newWriter).
  change (handler_at hs 0 ?c ?w0) with (Ok (ginLogger clock) c w0).
  cbn match. unfold ginLogger, time_Now.
  unfold bind at 1. unfold bind at 1. unfold bind at 1.
  unfold getW at 1, modW at 1, ret at 1. cbn match beta.
  unfold bind at 1. fold w1. rewrite H1.
  unfold bind, getW, modW, getC, ret. cbn -[Next Z.sub].
  rewrite (Next_counts_on _ _ _ _ (gin.index c' + 5));
    [reflexivity | cbn [gin.index]; rewrite Hlen; lia | cbn [gin.index]; lia].
Qed.

Lemma getValue_method (routes : list Route) (method path : string)
  (r : Route) (ps : list (string * string)) :
  getValue routes method path = Some (r, ps) -> route_method r = method.
Proof.
  induction routes as [|a routes IH]; cbn; [discriminate|].
  destruct (String.eqb_spec (route_method a) method) as [E|E].
  - destruct (match_segments _ _).
    + intros [= <- _]. exact E.
    + exact IH.
  - exact IH.
Qed.

(** X18: a request that falls on one of the four user routes of [hew] is
    served whatever credentials it carries or lacks.  With any fuel from 5
    up the chain returns without a panic: the route's handler, the one
    [hew] registered under that method and pattern, runs once on a fresh
    context holding the path parameters; the response is the handler's, the
    stores are as the handler left them, and around it the middleware reads
    the clock four times and logs one line with the request's method, path
    and client and the time the handler took. *)
Theorem user_routes_served (clock : nat -> Go.Time) (fuel : nat)
  (rq : gin.Request) (w : World) (r : Route)
  (params : list (string * string)) :
  (5 <= fuel)%nat ->
  getValue (trees (hew clock)) (gin.Method rq) (gin.Path rq)
  = Some (r, params) ->
  route_path r = "/users" \/ route_path r = "/users/:id" ->
  exists h c' w',
    In (gin.Method rq, route_path r, h)
       [("GET", "/users", getUsers); ("POST", "/users", createUser clock);
        ("PUT", "/users/:id", updateUser);
        ("DELETE", "/users/:id", deleteUser)]
    /\ h (gin.mkContext rq params 3 gin.newWriter)
         (mkWorld (users w) (posts w) (S (S (ticks w))) (logs w))
       = Ok tt c' w'
    /\ replied (gin.mkContext rq params 3 gin.newWriter) c'
    /\ ServeHTTP fuel (hew clock) rq w
       = Some (Ok tt
                 (gin.mkContext rq params (gin.index c' + 4) (gin.Writer c'))
                 (mkWorld (users w') (posts w') (S (S (ticks w')))
                    (logs w'
                     ++ [mkLogLine (gin.Method rq) (gin.Path rq)
                                   (gin.RemoteAddr rq)
                                   (clock (ticks w')
                                    - clock (S (ticks w)))]))).
Proof.
  intros Hfuel Hget Hpath.
  pose proof (getValue_method _ _ _ _ _ Hget) as Hm.
  pose proof (getValue_In _ _ _ _ _ Hget) as Hin.
  set (c3 := gin.mkContext rq params 3 gin.newWriter).
  set (w2 := mkWorld (users w) (posts w) (S (S (ticks w))) (logs w)).
  assert (Hh : exists h,
             In (route_method r, route_path r, h)
                [("GET", "/users", getUsers);
                 ("POST", "/users", createUser clock);
                 ("PUT", "/users/:id", updateUser);
                 ("DELETE", "/users/:id", deleteUser)]
             /\ route_handlers r = public_chain clock h
             /\ exists c' w', h c3 w2 = Ok tt c' w' /\ replied c3 c').
  { cbv [hew Handle Use Group Default trees Handlers app In] in Hin.
    destruct Hin as [<-|[<-|[<-|[<-|[<-|[<-|[<-|[<-|[]]]]]]]]];
      cbn [route_path] in Hpath;
      try (destruct Hpath; discriminate);
      eexists; (split; [|split; [reflexivity|]]);
      cbn [route_method route_path In]; auto 6.
    - destruct (getUsers_cases c3 w2 eq_refl) as (c' & Hrun & Hr).
      exists c', w2. split; assumption.
    - destruct (createUser_cases clock c3 w2 eq_refl)
        as (c' & w' & Hrun & Hr & _).
      exists c', w'. split; assumption.
    - destruct (updateUser_cases c3 w2 eq_refl) as (c' & w' & Hrun & Hr & _).
      exists c', w'. split; assumption.
    - destruct (deleteUser_cases c3 w2 eq_refl) as (c' & w' & Hrun & Hr & _).
      exists c', w'. split; assumption. }
  destruct Hh as (h & Htab & Hchain & c' & w' & Hrun & Hr).
  exists h, c', w'. rewrite <- Hm. split; [exact Htab|].
  split; [exact Hrun|]. split; [exact Hr|].
  destruct (replied_index _ _ Hr) as (Hrq & Hps & Hidx).
  unfold ServeHTTP. rewrite Hm in *. rewrite Hget, Hchain.
  rewrite (public_chain_runs clock fuel h rq params w c' w' Hfuel Hrun).
  - rewrite Hrq, Hps. reflexivity.
  - cbn [gin.index c3] in Hidx. unfold gin.abortIndex in Hidx. lia.
Qed.

(** X19: a request that falls on one of the four post routes of [hew] and
    carries the credentials admin/password123 passes [AuthMiddleware] and
    is served like a user route, one place further down the chain: with
    any fuel from 6 up the route's handler runs once on a fresh context,
    the response and the stores are the handler's, and the middleware adds
    four clock readings and one log line. *)
Theorem post_routes_served (clock : nat -> Go.Time) (fuel : nat)
  (rq : gin.Request) (w : World) (r : Route)
  (params : list (string * string)) :
  (6 <= fuel)%nat ->
  gin.BasicAuth rq = Some ("admin", "password123") ->
  getValue (trees (hew clock)) (gin.Method rq) (gin.Path rq)
  = Some (r, params) ->
  route_path r = "/posts" \/ route_path r = "/posts/:id" ->
  exists h c' w',
    In (gin.Method rq, route_path r, h)
       [("GET", "/posts", getPosts); ("POST", "/posts", createPost clock);
        ("PUT", "/posts/:id", updatePost);
        ("DELETE", "/posts/:id", deletePost)]
    /\ h (gin.mkContext rq params 4 gin.newWriter)
         (mkWorld (users w) (posts w) (S (S (ticks w))) (logs w))
       = Ok tt c' w'
    /\ replied (gin.mkContext rq params 4 gin.newWriter) c'
    /\ ServeHTTP fuel (hew clock) rq w
       = Some (Ok tt
                 (gin.mkContext rq params (gin.index c' + 5) (gin.Writer c'))
                 (mkWorld (users w') (posts w') (S (S (ticks w')))
                    (logs w'
                     ++ [mkLogLine (gin.Method rq) (gin.Path rq)
                                   (gin.RemoteAddr rq)
                                   (clock (ticks w')
                                    - clock (S (ticks w)))]))).
Proof.
  intros Hfuel Hauth Hget Hpath.
  pose proof (getValue_method _ _ _ _ _ Hget) as Hm.
  pose proof (getValue_In _ _ _ _ _ Hget) as Hin.
  set (c4 := gin.mkContext rq params 4 gin.newWriter).
  set (w2 := mkWorld (users w) (posts w) (S (S (ticks w))) (logs w)).
  assert (Hh : exists h,
             In (route_method r, route_path r, h)
                [("GET", "/posts", getPosts);
                 ("POST", "/posts", createPost clock);
                 ("PUT", "/posts/:id", updatePost);
                 ("DELETE", "/posts/:id", deletePost)]
             /\ route_handlers r = protected_chain clock h
             /\ exists c' w', h c4 w2 = Ok tt c' w' /\ replied c4 c').
  { cbv [hew Handle Use Group Default trees Handlers app In] in Hin.
    destruct Hin as [<-|[<-|[<-|[<-|[<-|[<-|[<-|[<-|[]]]]]]]]];
      cbn [route_path] in Hpath;
      try (destruct Hpath; discriminate);
      eexists; (split; [|split; [reflexivity|]]);
      cbn [route_method route_path In]; auto 6.
    - destruct (getPosts_cases c4 w2 eq_refl) as (c' & Hrun & Hr).
      exists c', w2. split; assumption.
    - destruct (createPost_cases clock c4 w2 eq_refl)
        as (c' & w' & Hrun & Hr & _).
      exists c', w'. split; assumption.
    - destruct (updatePost_cases c4 w2 eq_refl) as (c' & w' & Hrun & Hr & _).
      exists c', w'. split; assumption.
    - destruct (deletePost_cases c4 w2 eq_refl) as (c' & w' & Hrun & Hr & _).
      exists c', w'. split; assumption. }
  destruct Hh as (h & Htab & Hchain & c' & w' & Hrun & Hr).
  exists h, c', w'. rewrite <- Hm. split; [exact Htab|].
  split; [exact Hrun|]. split; [exact Hr|].
  destruct (replied_index _ _ Hr) as (Hrq & Hps & Hidx).
  unfold ServeHTTP. rewrite Hm in *. rewrite Hget, Hchain.
  rewrite (protected_chain_runs clock fuel h rq params w c' w'
             Hfuel Hauth Hrun).
  - rewrite Hrq, Hps. reflexivity.
  - cbn [gin.index c4] in Hidx. unfold gin.abortIndex in Hidx. lia.
Qed.

(** ** Paths outside the two collections *)

Lemma getValue_no_match (routes : list Route) (method path : string) :
  Forall (fun r => match_segments (segments (route_path r)) (segments path)
                   = None) routes ->
  getValue routes method path = None.
Proof.
  induction 1 as [|a routes Ha _ IH]; cbn [getValue]; [reflexivity|].
  rewrite Ha. destruct (String.eqb _ _); exact IH.
Qed.

Lemma match_literal (lit : string) (tail : list string) (seg : string)
  (rest : list string) :
  (forall name, lit <> String ":"%char name) ->
  match_segments (lit :: tail) (seg :: rest)
  = if String.eqb lit seg then match_segments tail rest else None.
Proof.
  intros Hlit. destruct lit as [|a lit]; [reflexivity|].
  destruct a as [[] [] [] [] [] [] [] []];
    first [reflexivity | exfalso; exact (Hlit lit eq_refl)].
Qed.

Lemma match_no_segment (pat : string) (tail : list string) :
  match_segments (pat :: tail) [] = None.
Proof.
  destruct pat as [|a pat]; [reflexivity|].
  destruct a as [[] [] [] [] [] [] [] []]; reflexivity.
Qed.

Lemma match_under (lit : string) (tail segs : list string)
  (ps : list (string * string)) :
  (forall name, lit <> String ":"%char name) ->
  match_segments (EmptyString :: lit :: tail) segs = Some ps ->
  exists rest, segs = EmptyString :: lit :: rest.
Proof.
  intros Hlit. destruct segs as [|s0 segs]; [discriminate|].
  rewrite match_literal by discriminate.
  destruct (String.eqb_spec EmptyString s0) as [<-|_]; [|discriminate].
  destruct segs as [|s1 rest]; [rewrite match_no_segment; discriminate|].
  rewrite match_literal by exact Hlit.
  destruct (String.eqb_spec lit s1) as [<-|_]; [|discriminate].
  intros _. exists rest. reflexivity.
Qed.

(** X20: [hew] serves nothing outside the two collections: a request whose
    path does not start with the segment [users] or [posts] under the root
    falls on no route, whatever its method, so none of the handlers runs
    for it; [/health] is such a path, [healthCheck] being defined but never
    registered. *)
Theorem other_paths_unrouted (clock : nat -> Go.Time) (fuel : nat)
  (rq : gin.Request) (w : World) :
  (forall rest, segments (gin.Path rq) <> EmptyString :: "users" :: rest) ->
  (forall rest, segments (gin.Path rq) <> EmptyString :: "posts" :: rest) ->
  getValue (trees (hew clock)) (gin.Method rq) (gin.Path rq) = None
  /\ ServeHTTP fuel (hew clock) rq w = None.
Proof.
  intros Hu Hp.
  assert (Hnone : getValue (trees (hew clock)) (gin.Method rq) (gin.Path rq)
                  = None).
  { apply getValue_no_match.
    cbv [hew Handle Use Group Default trees Handlers app].
    repeat constructor; cbn [route_path];
      match goal with
      | |- match_segments (segments ?pat) ?segs = None =>
        let pat' := eval vm_compute in (segments pat) in
        change (segments pat) with pat';
        destruct (match_segments pat' segs) as [ps|] eqn:E; [|reflexivity];
        exfalso; apply match_under in E; [|discriminate];
        destruct E as (rest & E);
        first [exact (Hu rest E) | exact (Hp rest E)]
      end. }
  split; [exact Hnone|]. unfold ServeHTTP. rewrite Hnone. reflexivity.
Qed.

(** * The further properties at work on the sample data *)

Lemma users_by_id_not_found_witness :
  (forall v, In v (users Sample.two_users)
             -> Go.Sprintf_d (User.ID v) <> "9")
  /\ updateUser Cases.put_user_9 Sample.two_users
     = Ok tt (answered http.StatusNotFound
                       (gin.H "message" "User not found") Cases.put_user_9)
             Sample.two_users
  /\ deleteUser Cases.put_user_9 Sample.two_users
     = Ok tt (answered http.StatusNotFound
                       (gin.H "message" "User not found") Cases.put_user_9)
             Sample.two_users.
Proof.
  assert (H : forall v, In v (users Sample.two_users)
                        -> Go.Sprintf_d (User.ID v) <> "9").
  { intros v [<-|[<-|[]]]; discriminate. }
  split; [exact H|].
  apply (users_by_id_not_found Cases.put_user_9 Sample.two_users eq_refl H).
Defined.

Lemma posts_by_id_not_found_witness :
  (forall q, In q (posts Sample.two_posts)
             -> Go.Sprintf_d (Post.ID q) <> "9")
  /\ updatePost Cases.put_post_9 Sample.two_posts
     = Ok tt (answered http.StatusNotFound
                       (gin.H "message" "Post not found") Cases.put_post_9)
             Sample.two_posts
  /\ deletePost Cases.put_post_9 Sample.two_posts
     = Ok tt (answered http.StatusNotFound
                       (gin.H "message" "Post not found") Cases.put_post_9)
             Sample.two_posts.
Proof.
  assert (H : forall q, In q (posts Sample.two_posts)
                        -> Go.Sprintf_d (Post.ID q) <> "9").
  { intros q [<-|[<-|[]]]; discriminate. }
  split; [exact H|].
  apply (posts_by_id_not_found Cases.put_post_9 Sample.two_posts eq_refl H).
Defined.

Lemma create_malformed_body_witness :
  gin.jsonUser (gin.Req Cases.post_user_unreadable) = inl "EOF"
  /\ gin.jsonPost (gin.Req Cases.post_user_unreadable) = inl "EOF"
  /\ createUser Sample.clock Cases.post_user_unreadable Sample.two_users
     = Ok tt (rejected "EOF" Cases.post_user_unreadable) Sample.two_users
  /\ createPost Sample.clock Cases.post_user_unreadable Sample.two_users
     = Ok tt (rejected "EOF" Cases.post_user_unreadable) Sample.two_users.
Proof.
  destruct (create_malformed_body Sample.clock Cases.post_user_unreadable
              Sample.two_users "EOF" eq_refl) as [Hu Hp].
  split; [reflexivity|]. split; [reflexivity|].
  split; [exact (Hu eq_refl) | exact (Hp eq_refl)].
Defined.

Lemma update_malformed_body_witness :
  gin.jsonUser (gin.Req Cases.put_user_2_unreadable) = inl "EOF"
  /\ In Sample.bob (users Sample.two_posts)
  /\ In Sample.again (posts Sample.two_posts)
  /\ updateUser Cases.put_user_2_unreadable Sample.two_posts
     = Ok tt (rejected "EOF" Cases.put_user_2_unreadable) Sample.two_posts
  /\ updatePost Cases.put_user_2_unreadable Sample.two_posts
     = Ok tt (rejected "EOF" Cases.put_user_2_unreadable) Sample.two_posts.
Proof.
  destruct (update_malformed_body Cases.put_user_2_unreadable
              Sample.two_posts "EOF" eq_refl) as [Hu Hp].
  split; [reflexivity|]. split; [right; left; reflexivity|].
  split; [right; left; reflexivity|]. split.
  - apply (Hu eq_refl). exists Sample.bob.
    split; [right; left; reflexivity | reflexivity].
  - apply (Hp eq_refl). exists Sample.again.
    split; [right; left; reflexivity | reflexivity].
Defined.

Lemma deletePost_then_list_witness :
  In Sample.hello (posts Sample.two_posts)
  /\ Go.Sprintf_d (Post.ID Sample.hello) = "1"
  /\ exists l1 p l2,
       first_hit (post_has_id "1") (posts Sample.two_posts) l1 p l2
       /\ deletePost Cases.delete_post_1 Sample.two_posts
          = Ok tt
               (answered http.StatusOK (gin.H "message" "Post deleted")
                         Cases.delete_post_1)
               (mkWorld [Sample.alice; Sample.bob] (l1 ++ l2) 25 []).
Proof.
  split; [left; reflexivity|]. split; [reflexivity|].
  destruct (deletePost_then_list Cases.delete_post_1 Cases.get_posts
              Sample.two_posts eq_refl eq_refl
              (ex_intro _ Sample.hello (conj (or_introl eq_refl) eq_refl)))
    as (l1 & p & l2 & Hhit & Hdel & _).
  exists l1, p, l2. split; [exact Hhit | exact Hdel].
Defined.

Lemma createUser_then_list_witness :
  (forall v, In v (users Sample.two_users) -> User.Username v <> "carol")
  /\ createUser Sample.clock Cases.post_user_carol Sample.two_users
     = Ok tt
          (answered http.StatusCreated
             (gin.OfUser (User.mk 3 "carol" "c@x.com" "hunter2" 1013))
             Cases.post_user_carol)
          (mkWorld [Sample.alice; Sample.bob;
                    User.mk 3 "carol" "c@x.com" "hunter2" 1013] [] 14 [])
  /\ getUsers Cases.get_users
       (mkWorld [Sample.alice; Sample.bob;
                 User.mk 3 "carol" "c@x.com" "hunter2" 1013] [] 14 [])
     = Ok tt
          (answered http.StatusOK
             (gin.OfUsers [Sample.alice; Sample.bob;
                           User.mk 3 "carol" "c@x.com" "hunter2" 1013])
             Cases.get_users)
          (mkWorld [Sample.alice; Sample.bob;
                    User.mk 3 "carol" "c@x.com" "hunter2" 1013] [] 14 []).
Proof.
  assert (H : forall v, In v (users Sample.two_users)
                        -> User.Username v <> "carol").
  { intros v [<-|[<-|[]]]; discriminate. }
  split; [exact H|].
  apply (createUser_then_list Sample.clock Cases.post_user_carol
           Cases.get_users Sample.two_users
           (Sample.user 0 "carol" "c@x.com" "hunter2")
           eq_refl eq_refl eq_refl eq_refl H).
Defined.


Lemma user_handlers_frame_witness :
  gin.Writer Cases.delete_user_1 = gin.newWriter
  /\ exists c' w',
       deleteUser Cases.delete_user_1 Sample.two_posts = Ok tt c' w'
       /\ posts w' = posts Sample.two_posts.
Proof.
  split; [reflexivity|].
  destruct (user_handlers_frame Sample.clock Cases.delete_user_1
              Sample.two_posts eq_refl)
    as (_ & _ & _ & c' & w' & Hrun & Hposts & _).
  exists c', w'. split; [exact Hrun | exact Hposts].
Defined.

Lemma post_handlers_frame_witness :
  gin.Writer Cases.delete_post_1 = gin.newWriter
  /\ exists c' w',
       deletePost Cases.delete_post_1 Sample.two_posts = Ok tt c' w'
       /\ users w' = users Sample.two_posts.
Proof.
  split; [reflexivity|].
  destruct (post_handlers_frame Sample.clock Cases.delete_post_1
              Sample.two_posts eq_refl)
    as (_ & _ & _ & c' & w' & Hrun & Husers & _).
  exists c', w'. split; [exact Hrun | exact Husers].
Defined.

Lemma create_delete_keep_usernames_witness :
  NoDup (map User.Username (users Sample.two_users))
  /\ Forall (fun v => validateUserInput v = true) (users Sample.two_users)
  /\ exists c' w',
       createUser Sample.clock Cases.post_user_carol Sample.two_users
       = Ok tt c' w'
       /\ NoDup (map User.Username (users w')).
Proof.
  assert (Hnd : NoDup (map User.Username (users Sample.two_users))).
  { apply (distinct_snoc ["alice"] "bob").
    - apply NoDup_singleton.
    - intros [H|[]]. discriminate H. }
  assert (Hval : Forall (fun v => validateUserInput v = true)
                        (users Sample.two_users)).
  { repeat constructor. }
  split; [exact Hnd|]. split; [exact Hval|].
  destruct (create_delete_keep_usernames Sample.clock Cases.post_user_carol
              Sample.two_users eq_refl Hnd Hval)
    as ((c' & w' & Hrun & Hnd' & _) & _).
  exists c', w'. split; [exact Hrun | exact Hnd'].
Defined.

Lemma updateUser_unchecked_witness :
  first_hit (user_has_id "2") (users Sample.two_users)
            [Sample.alice] Sample.bob []
  /\ updateUser Cases.put_user_2_as_alice Sample.two_users
     = Ok tt
          (answered http.StatusOK
             (gin.OfUser (User.mk 2 "alice" "a2@x.com" "pw" 1009))
             Cases.put_user_2_as_alice)
          (mkWorld [Sample.alice; User.mk 2 "alice" "a2@x.com" "pw" 1009]
                   [] 13 [])
  /\ ~ NoDup (map User.Username
                  [Sample.alice; User.mk 2 "alice" "a2@x.com" "pw" 1009]).
Proof.
  assert (Hhit : first_hit (user_has_id "2") (users Sample.two_users)
                           [Sample.alice] Sample.bob []).
  { repeat split. repeat constructor. }
  split; [exact Hhit|].
  destruct (updateUser_unchecked Cases.put_user_2_as_alice Sample.two_users
              (Sample.user 0 "alice" "a2@x.com" "pw")
              [Sample.alice] [] Sample.bob eq_refl eq_refl Hhit)
    as (Hrun & Hdup & _).
  split; [exact Hrun|].
  apply Hdup. exists Sample.alice. split; [left; reflexivity | reflexivity].
Defined.

Lemma ids_stay_in_sequence_witness :
  in_sequence (map User.ID (users Sample.two_users))
  /\ Z.of_nat (length (users Sample.two_users)) < 2 ^ 63 - 1
  /\ exists c' w',
       createUser Sample.clock Cases.post_user_carol Sample.two_users
       = Ok tt c' w'
       /\ in_sequence (map User.ID (users w')).
Proof.
  assert (Hlen : Z.of_nat (length (users Sample.two_users)) < 2 ^ 63 - 1)
    by reflexivity.
  split; [reflexivity|]. split; [exact Hlen|].
  destruct (ids_stay_in_sequence Sample.clock Cases.post_user_carol
              Sample.two_users eq_refl eq_refl Hlen)
    as ((c' & w' & Hrun & Hseq & _) & _).
  exists c', w'. split; [exact Hrun | exact Hseq].
Defined.

Lemma delete_then_create_collides_witness :
  first_hit (user_has_id "1") (users Sample.two_users)
            [] Sample.alice [Sample.bob]
  /\ User.ID Sample.bob = Go.len (users Sample.two_users)
  /\ exists c1 w1 c3 w3 created,
       deleteUser Cases.delete_user_1 Sample.two_users = Ok tt c1 w1
       /\ createUser Sample.clock Cases.post_user_carol w1 = Ok tt c3 w3
       /\ users w3 = ([] ++ [Sample.bob]) ++ [created]
       /\ User.Username created = "carol"
       /\ User.ID created = User.ID Sample.bob.
Proof.
  assert (Hhit : first_hit (user_has_id "1") (users Sample.two_users)
                           [] Sample.alice [Sample.bob]).
  { repeat split. constructor. }
  split; [exact Hhit|]. split; [reflexivity|].
  apply (delete_then_create_collides Sample.clock Cases.delete_user_1
           Cases.post_user_carol Sample.two_users
           (Sample.user 0 "carol" "c@x.com" "hunter2")
           [] [Sample.bob] Sample.alice Sample.bob eq_refl eq_refl Hhit).
  - left. reflexivity.
  - reflexivity.
  - reflexivity.
  - reflexivity.
  - reflexivity.
  - intros x [<-|[]]. discriminate.
Defined.

Lemma deleted_user_is_gone_witness :
  first_hit (user_has_id "1") (users Sample.two_users)
            [] Sample.alice [Sample.bob]
  /\ deleteUser Cases.delete_user_1 Sample.two_users
     = Ok tt (answered http.StatusOK (gin.H "message" "User deleted")
                       Cases.delete_user_1)
             (mkWorld [Sample.bob] [] 13 [])
  /\ deleteUser Cases.delete_user_1 (mkWorld [Sample.bob] [] 13 [])
     = Ok tt (answered http.StatusNotFound
                       (gin.H "message" "User not found")
                       Cases.delete_user_1)
             (mkWorld [Sample.bob] [] 13 []).
Proof.
  assert (Hhit : first_hit (user_has_id "1") (users Sample.two_users)
                           [] Sample.alice [Sample.bob]).
  { repeat split. constructor. }
  split; [exact Hhit|].
  destruct (deleted_user_is_gone Cases.delete_user_1 Cases.delete_user_1
              Sample.two_users [] [Sample.bob] Sample.alice
              eq_refl eq_refl eq_refl Hhit)
    as (Hdel & _ & Hagain).
  { repeat constructor. }
  split; [exact Hdel | exact Hagain].
Defined.

Lemma lookup_by_formatted_id_witness :
  NoDup (map User.ID (users Sample.two_users))
  /\ In Sample.bob (users Sample.two_users)
  /\ sole_hit (user_has_id (Go.Sprintf_d 2)) (users Sample.two_users)
              Sample.bob.
Proof.
  assert (Hnd : NoDup (map User.ID (users Sample.two_users))).
  { apply (in_sequence_NoDup [1; 2]). reflexivity. }
  assert (Hin : In Sample.bob (users Sample.two_users)).
  { right. left. reflexivity. }
  split; [exact Hnd|]. split; [exact Hin|].
  destruct (lookup_by_formatted_id 2) as (_ & _ & Hsole).
  exact (Hsole Sample.two_users Sample.bob Hnd Hin eq_refl).
Defined.

Lemma createPost_then_find_witness :
  (forall q, In q (posts Sample.two_posts) -> Post.ID q <> 3)
  /\ findPostByID 3 Cases.get_posts
       (mkWorld [Sample.alice; Sample.bob]
          [Sample.hello; Sample.again; Post.mk 3 "note" "third post" 2 1025]
          26 [])
     = Ok (Some (Post.mk 3 "note" "third post" 2 1025)) Cases.get_posts
          (mkWorld [Sample.alice; Sample.bob]
             [Sample.hello; Sample.again;
              Post.mk 3 "note" "third post" 2 1025] 26 []).
Proof.
  assert (H : forall q, In q (posts Sample.two_posts) -> Post.ID q <> 3).
  { intros q [<-|[<-|[]]]; discriminate. }
  split; [exact H|].
  apply (createPost_then_find Sample.clock Cases.post_post_note
           Cases.get_posts Sample.two_posts
           (Sample.post 0 "note" "third post" 2) eq_refl eq_refl H).
Defined.

Lemma user_routes_served_witness :
  getValue (trees (hew Sample.clock)) "GET" "/users"
  = Some (mkRoute "GET" "/users" (public_chain Sample.clock getUsers), [])
  /\ exists h c' w',
       h (gin.mkContext
            (Sample.post_request "GET" "/users" (Some ("mallory", "guess"))
                                 Sample.hello)
            [] 3 gin.newWriter)
         (mkWorld [Sample.alice; Sample.bob] [] 15 [])
       = Ok tt c' w'
       /\ ServeHTTP 5 (hew Sample.clock)
            (Sample.post_request "GET" "/users" (Some ("mallory", "guess"))
                                 Sample.hello)
            Sample.two_users
          = Some (Ok tt
                    (gin.mkContext
                       (Sample.post_request "GET" "/users"
                          (Some ("mallory", "guess")) Sample.hello)
                       [] (gin.index c' + 4) (gin.Writer c'))
                    (mkWorld (users w') (posts w') (S (S (ticks w')))
                       (logs w'
                        ++ [mkLogLine "GET" "/users" "10.0.0.7"
                              (Sample.clock (ticks w')
                               - Sample.clock 14)]))).
Proof.
  split; [reflexivity|].
  destruct (user_routes_served Sample.clock 5
              (Sample.post_request "GET" "/users" (Some ("mallory", "guess"))
                                   Sample.hello)
              Sample.two_users
              (mkRoute "GET" "/users" (public_chain Sample.clock getUsers))
              [] (le_n 5) eq_refl (or_introl eq_refl))
    as (h & c' & w' & _ & Hh & _ & Hrun).
  exists h, c', w'. split; [exact Hh | exact Hrun].
Defined.

Lemma post_routes_served_witness :
  getValue (trees (hew Sample.clock)) "GET" "/posts"
  = Some (mkRoute "GET" "/posts" (protected_chain Sample.clock getPosts), [])
  /\ exists h c' w',
       h (gin.mkContext (Sample.post_request "GET" "/posts" Cases.admin
                                             Sample.hello)
                        [] 4 gin.newWriter)
         (mkWorld [Sample.alice; Sample.bob] [Sample.hello; Sample.again]
                  27 [])
       = Ok tt c' w'
       /\ ServeHTTP 6 (hew Sample.clock)
            (Sample.post_request "GET" "/posts" Cases.admin Sample.hello)
            Sample.two_posts
          = Some (Ok tt
                    (gin.mkContext
                       (Sample.post_request "GET" "/posts" Cases.admin
                                            Sample.hello)
                       [] (gin.index c' + 5) (gin.Writer c'))
                    (mkWorld (users w') (posts w') (S (S (ticks w')))
                       (logs w'
                        ++ [mkLogLine "GET" "/posts" "10.0.0.7"
                              (Sample.clock (ticks w')
                               - Sample.clock 26)]))).
Proof.
  split; [reflexivity|].
  destruct (post_routes_served Sample.clock 6
              (Sample.post_request "GET" "/posts" Cases.admin Sample.hello)
              Sample.two_posts
              (mkRoute "GET" "/posts"
                       (protected_chain Sample.clock getPosts))
              [] (le_n 6) eq_refl eq_refl (or_introl eq_refl))
    as (h & c' & w' & _ & Hh & _ & Hrun).
  exists h, c', w'. split; [exact Hh | exact Hrun].
Defined.

Lemma other_paths_unrouted_witness :
  segments "/health" = [EmptyString; "health"]
  /\ ServeHTTP 5 (hew Sample.clock) (Sample.bare_request "GET" "/health")
               Sample.two_posts
     = None.
Proof.
  split; [reflexivity|].
  apply (other_paths_unrouted Sample.clock 5
           (Sample.bare_request "GET" "/health") Sample.two_posts).
  - intros rest H. discriminate H.
  - intros rest H. discriminate H.
Defined.
